(* ===== verification/_CoqProject ===== *)
-Q . S2P
Prelude.v
JsValue.v
Json.v
Entities.v
Redis.v
Repositories.v
World.v
Providers.v
MongoSchema.v
MongoClientRepository.v
Service.v
Controller.v
App.v
