(* ===== verification/Prelude.v ===== *)
(** * A verification development of the client-registration API

    The repository is a small TypeScript (Express + Mongoose + Redis)
    service that registers clients.  A POST request is handled by
    [ClientController.register] (src/src/interfaces/controllers), which
    calls [ClientService.registerClient]
    (src/src/application/services/ClientService.ts).  The service
    validates the request, asks the client repository whether a client
    with the same email or phone exists, looks the postal code (CEP) up
    in the Redis cache, on a miss queries two HTTP providers in order
    (ViaCEP, then ApiCEP) and normalises the first answer, writes the
    address through to the cache and to the address repository, assigns
    a uuid, and saves the client.  The other routes are pass-through
    queries to the client repository.

    ** Files and what they model (in dependency order)

    - [Prelude] (this file): the exception type of the JavaScript
      runtime ([exn], an [Error] with its name and message), the
      state-and-exception monad [M S A = S -> outcome A * S] in which
      every [async] function is modelled (a rejected promise is
      [Throw], and the state reached before the exception is kept,
      which is how JavaScript behaves: side effects are not rolled
      back), its notation [let* x := c in k] in [svc_scope], the
      rewriting database [run] and the tactic [run_simpl].
    - [JsValue]: JavaScript values ([jsval]), truthiness ([truthy],
      used by every [!x] and [if (x)]), [x || y] ([js_or]), property
      access with its [TypeError] on [null]/[undefined] ([get_prop]) and
      strict equality ([js_strict_eq]).
    - [Json]: [JSON.stringify] ([stringify_value], [print]) and
      [JSON.parse] ([JSON_parse]) as the cache uses them.
    - [Entities]: [Client] and [Address] of src/src/domain/entities/Client.ts.
    - [Redis]: the store behind [redisClient] with per-key expiry.
    - [Repositories]: the two interfaces of src/src/domain/repositories as
      type classes [Ops] with the [Laws] the service relies on, and
      [AddressRepositoryImpl] (the module-level array).
    - [World]: the world the service runs in (both repositories, the
      cache, the clock, the network, the uuid source and a log of every
      external call) and the primitive effects ([redis_get],
      [redis_set], [axios_get], [uuidv4], [console_error]).
    - [Providers]: [fetchAddressFromViaCEP], [fetchAddressFromApiCEP]
      and the fallback loop [fetchAddress], with the abstract resolver
      [resolve] they refine.
    - [MongoSchema]: AddressSchema and ClientSchema of
      src/src/infrastructure/database/models/Client.ts: casting, the
      [uppercase] setter, [required]/[maxlength]/[match] validators.
    - [MongoClientRepository]: [ClientRepositoryImpl] over a model of
      the collection (documents, unique indexes, ObjectId casting,
      skip/limit paging), discharging [ClientRepository.Laws].
    - [Service]: [ClientService]: [getCachedAddress], [cacheAddress],
      [registerClient] and the query operations.
    - [Controller]: [ClientController], [errorResponse], [parseInt] and
      the router of routes.ts.
    - [App]: the application wired as routes.ts builds it, and what
      the composition answers when the schema rejects a client.

    ** What the theorems show

    - Registration ([Service]): the outcome and the exact sequence of
      external calls on every branch (invalid, duplicate, cache hit,
      resolved, not found); invariants over any run: unique email and
      phone and an address for every stored client, and a cache whose
      live entries are the JSON of an address for their key.
    - Resolution ([Providers]): [fetchAddress] refines [resolve] (first
      success in order, errors swallowed and logged), the second
      provider is called exactly when the first gave nothing, and the
      address returned is the one the chosen provider's body describes
      under that provider's field names ([viacep_address],
      [apicep_address]).
    - Cache: JSON round trip ([Json.JSON_parse_print]), read-back before
      expiry and a miss after 24 hours.
    - HTTP interface ([Controller]): status codes of [register] on
      every exception, [delete] on every branch, the defaults of the
      query parameters ([parseInt] reads back every printed integer).
    - Composition ([App]): the two departures from the spec found by
      modelling (see PROJECT.json "findings").

    ** Bounds, fuel and approximations

    [JSON_parse] runs with fuel [length s + 1]; [Json.cost_le_length]
    shows that the parse of a printed value needs at most its length,
    so the fuel never runs out on the values the cache holds.  Numbers
    are exact integers ([Z]); strings are byte strings whose JavaScript
    length counts non-continuation bytes; white space and case mapping
    are ASCII.  A request body is a [Client.t] whose fields are strings
    or absent.  Mongoose runs in strict mode with [strictQuery] off;
    the [id] setter of newer versions is a flag of the collection.

    ** Not modelled

    The connection code of src/src/infrastructure/database/mongoose.ts
    and src/src/infrastructure/cache/redisClient.ts (pure I/O: connect
    and log), the Express server itself, and the Jest tests (their
    scenario is replayed in [Service.Scenario]).  Concurrent requests
    are not interleaved: each handler runs to completion on the world
    it is given. *)

From stdpp Require Import base list option.
From Stdlib Require Import String ZArith Lia.

(** ** Exceptions of the JavaScript runtime *)

(** An [Error] object: [new Error(message)] has name ["Error"];
    the runtime throws [TypeError]s; libraries throw their own. *)
Record exn := mkExn { exn_name : string; exn_message : string }.

Definition Error (message : string) : exn := mkExn "Error" message.
Definition TypeError (message : string) : exn := mkExn "TypeError" message.

(** The result of running an asynchronous function: the promise
    resolves with a value, or rejects with an exception. *)
Inductive outcome (A : Type) : Type :=
| Ret (a : A)
| Throw (e : exn).
Arguments Ret {A} a.
Arguments Throw {A} e.

Definition is_ret {A} (o : outcome A) : bool :=
  match o with Ret _ => true | Throw _ => false end.

(** ** The state-and-exception monad *)

Definition M (S A : Type) : Type := S -> outcome A * S.

Definition ret {S A} (a : A) : M S A := fun s => (Ret a, s).
Definition throw {S A} (e : exn) : M S A := fun s => (Throw e, s).

Definition bind {S A B} (c : M S A) (k : A -> M S B) : M S B :=
  fun s =>
    match c s with
    | (Ret a, s') => k a s'
    | (Throw e, s') => (Throw e, s')
    end.

(** [try { c } catch (e) { h(e) }] *)
Definition catch {S A} (c : M S A) (h : exn -> M S A) : M S A :=
  fun s =>
    match c s with
    | (Ret a, s') => (Ret a, s')
    | (Throw e, s') => h e s'
    end.

Definition get {S} : M S S := fun s => (Ret s, s).
Definition modify {S} (f : S -> S) : M S unit := fun s => (Ret tt, f s).

(** Run a computation on a component [T] of a larger state [S]. *)
Definition focus {S T A} (proj : S -> T) (upd : T -> S -> S) (c : M T A) : M S A :=
  fun s => let (o, t') := c (proj s) in (o, upd t' s).

Declare Scope svc_scope.
Delimit Scope svc_scope with svc.
Notation "'let*' x := c 'in' k" := (bind c (fun x => k))
  (at level 10, x name, c at level 100, k at level 200) : svc_scope.
Open Scope svc_scope.

(** ** Monad laws and run equations *)

Create Rewrite HintDb run.
Create HintDb svc.

Section MonadLaws.
Context {S A B C : Type}.

Lemma bind_ret_l (a : A) (k : A -> M S B) s : bind (ret a) k s = k a s.
Proof. reflexivity. Qed.

Lemma bind_throw e (k : A -> M S B) s : bind (throw e) k s = (Throw e, s).
Proof. reflexivity. Qed.

Lemma bind_ret_r (c : M S A) s : bind c ret s = c s.
Proof. unfold bind, ret. by destruct (c s) as [[] ?]. Qed.

Lemma bind_assoc (c : M S A) (f : A -> M S B) (g : B -> M S C) s :
  bind (bind c f) g s = bind c (fun a => bind (f a) g) s.
Proof. unfold bind. by destruct (c s) as [[] ?]. Qed.

Lemma bind_run_ret (c : M S A) (k : A -> M S B) s a s' :
  c s = (Ret a, s') -> bind c k s = k a s'.
Proof. unfold bind. by intros ->. Qed.

Lemma bind_run_throw (c : M S A) (k : A -> M S B) s e s' :
  c s = (Throw e, s') -> bind c k s = (Throw e, s').
Proof. unfold bind. by intros ->. Qed.

Lemma catch_run_ret (c : M S A) h s a s' :
  c s = (Ret a, s') -> catch c h s = (Ret a, s').
Proof. unfold catch. by intros ->. Qed.

Lemma catch_run_throw (c : M S A) h s e s' :
  c s = (Throw e, s') -> catch c h s = h e s'.
Proof. unfold catch. by intros ->. Qed.
End MonadLaws.

#[export] Hint Rewrite @bind_ret_l @bind_throw @bind_assoc : run.

(** Unfold the monad's plumbing and simplify. *)
Ltac run_simpl :=
  repeat (autorewrite with run in *; cbn [ret throw get modify focus] in *).

(** Step over a bind whose first computation is known. *)
Ltac run_step H :=
  first [ rewrite (bind_run_ret _ _ _ _ _ H)
        | rewrite (bind_run_throw _ _ _ _ _ H) ].

(** ** Generic lemmas on lists and options *)

Lemma find_none_iff {A} (f : A -> bool) (l : list A) :
  find f l = None <-> Forall (fun x => f x = false) l.
Proof.
  induction l as [|x l IH]; simpl; [split; auto|].
  destruct (f x) eqn:Hf; split; intros H; try discriminate.
  - by inversion H; congruence.
  - constructor; [done|]. by apply IH.
  - apply IH. by inversion H.
Qed.

Lemma find_some_in {A} (f : A -> bool) (l : list A) x :
  find f l = Some x -> In x l /\ f x = true.
Proof. apply find_some. Qed.

(** ** Generic lemmas on strings *)

Lemma string_app_assoc (a b c : string) : ((a ++ b) ++ c = a ++ (b ++ c))%string.
Proof. induction a as [|x a IH]; simpl; [done|]. by rewrite IH. Qed.

Lemma string_app_nil_r (a : string) : (a ++ "")%string = a.
Proof. induction a as [|x a IH]; simpl; [done|]. by rewrite IH. Qed.

Lemma string_length_app (a b : string) :
  String.length (a ++ b) = String.length a + String.length b.
Proof. induction a as [|x a IH]; simpl; [done|]. by rewrite IH. Qed.

#[export] Hint Rewrite string_app_assoc string_app_nil_r string_length_app : run.

(** A pure result inside the monad: [await] of a value that is
    already computed, or a synchronous [throw]. *)
Definition of_outcome {S A} (o : outcome A) : M S A := fun s => (o, s).

(** Sequencing of pure results. *)
Definition o_bind {A B} (o : outcome A) (k : A -> outcome B) : outcome B :=
  match o with Ret a => k a | Throw e => Throw e end.
