(* ===== verification/JsValue.v ===== *)
(** JavaScript values as the service sees them: the bodies axios hands
    back, what [JSON.parse] returns, and the fields the service reads.
    Truthiness ([truthy]) models every [!x] and [if (x)] of the code,
    [js_or] models [x || y], [get_prop] models [obj.field] with the
    [TypeError] thrown on [null] and [undefined], and [js_strict_eq]
    models [===] on primitives.

    Numbers are integers ([Z]): the fields the service compares or
    stores ([status], postal codes held as strings) never need
    fractions.  An object is the list of its own enumerable properties
    in enumeration order; objects built by the code or by [JSON.parse]
    never have two properties with the same key ([obj_keys_nodup]).
    Prototype properties (["constructor"], ["toString"], ...) and the
    index properties of strings and arrays are not modelled: the code
    reads none of them. *)

From stdpp Require Import base list option strings.
From Stdlib Require Import String ZArith Lia.
From S2P Require Import Prelude.

Local Open Scope string_scope.

#[warnings="-register-all"]
Inductive jsval : Type :=
| JUndefined
| JNull
| JBool (b : bool)
| JNum (n : Z)
| JStr (s : string)
| JArr (items : list jsval)
| JObj (props : list (string * jsval)).

(** The induction principle generated for [jsval] forgets the values
    nested in lists; this one keeps them. *)
Section JsvalInd.
Variable P : jsval -> Prop.
Hypothesis P_undef : P JUndefined.
Hypothesis P_null : P JNull.
Hypothesis P_bool : forall b, P (JBool b).
Hypothesis P_num : forall n, P (JNum n).
Hypothesis P_str : forall s, P (JStr s).
Hypothesis P_arr : forall l, Forall P l -> P (JArr l).
Hypothesis P_obj : forall ps, Forall (fun kv => P kv.2) ps -> P (JObj ps).

Fixpoint jsval_ind' (v : jsval) : P v :=
  match v with
  | JUndefined => P_undef
  | JNull => P_null
  | JBool b => P_bool b
  | JNum n => P_num n
  | JStr s => P_str s
  | JArr l =>
      P_arr l ((fix go (l : list jsval) : Forall P l :=
                  match l with
                  | [] => Forall_nil_2 _
                  | x :: l' => Forall_cons_2 _ _ _ (jsval_ind' x) (go l')
                  end) l)
  | JObj ps =>
      P_obj ps ((fix go (ps : list (string * jsval)) : Forall (fun kv => P kv.2) ps :=
                   match ps with
                   | [] => Forall_nil_2 _
                   | kv :: ps' => Forall_cons_2 _ _ _ (jsval_ind' kv.2) (go ps')
                   end) ps)
  end.
End JsvalInd.

(** ** Truthiness, [||] and [===] *)

(** [Boolean(v)]: [undefined], [null], [false], [0] and [""] are falsy;
    every object and array is truthy. *)
Definition truthy (v : jsval) : bool :=
  match v with
  | JUndefined | JNull => false
  | JBool b => b
  | JNum n => negb (n =? 0)%Z
  | JStr s => negb (String.eqb s "")
  | JArr _ | JObj _ => true
  end.

(** [a || b] evaluates to [a] when [a] is truthy, to [b] otherwise. *)
Definition js_or (a b : jsval) : jsval := if truthy a then a else b.

(** [a === b].  Objects and arrays are compared by reference; a value
    the code builds is never the same reference as another, so they
    are never strictly equal to anything here. *)
Definition js_strict_eq (a b : jsval) : bool :=
  match a, b with
  | JUndefined, JUndefined | JNull, JNull => true
  | JBool x, JBool y => Bool.eqb x y
  | JNum x, JNum y => (x =? y)%Z
  | JStr x, JStr y => String.eqb x y
  | _, _ => false
  end.

(** ** Property access *)

(** The first property named [k], as JavaScript finds it. *)
Fixpoint prop_lookup (k : string) (ps : list (string * jsval)) : option jsval :=
  match ps with
  | [] => None
  | (k', v) :: ps' => if String.eqb k k' then Some v else prop_lookup k ps'
  end.

Definition read_error (what k : string) : exn :=
  TypeError ("Cannot read properties of " ++ what ++ " (reading '" ++ k ++ "')").

(** [v.k]: reading a property of [undefined] or [null] throws; a
    missing property reads as [undefined]. *)
Definition get_prop (v : jsval) (k : string) : outcome jsval :=
  match v with
  | JUndefined => Throw (read_error "undefined" k)
  | JNull => Throw (read_error "null" k)
  | JObj ps => Ret (default JUndefined (prop_lookup k ps))
  | JStr s => Ret (if String.eqb k "length" then JNum (Z.of_nat (String.length s)) else JUndefined)
  | JArr l => Ret (if String.eqb k "length" then JNum (Z.of_nat (List.length l)) else JUndefined)
  | JBool _ | JNum _ => Ret JUndefined
  end.

(** [v.k || ''], the normalisation every provider applies to a field. *)
Definition field_or_empty (v : jsval) (k : string) : outcome jsval :=
  match get_prop v k with
  | Ret x => Ret (js_or x (JStr ""))
  | Throw e => Throw e
  end.

(** ** Well-formed values *)

(** The keys of an object are pairwise distinct. *)
Definition obj_keys_nodup (ps : list (string * jsval)) : Prop := NoDup (map fst ps).

(** A value [JSON.stringify] can print faithfully: no [undefined]
    anywhere and no repeated key in any object. *)
Fixpoint is_json (v : jsval) : bool :=
  match v with
  | JUndefined => false
  | JNull | JBool _ | JNum _ | JStr _ => true
  | JArr l => forallb is_json l
  | JObj ps =>
      bool_decide (NoDup (map fst ps)) && forallb (fun kv => is_json kv.2) ps
  end.

(** ** Lemmas *)

Lemma js_or_truthy a b : truthy a = true -> js_or a b = a.
Proof. unfold js_or. by intros ->. Qed.

Lemma js_or_falsy a b : truthy a = false -> js_or a b = b.
Proof. unfold js_or. by intros ->. Qed.

Lemma truthy_str s : truthy (JStr s) = true <-> s <> "".
Proof.
  simpl. destruct (String.eqb_spec s ""); simpl; split; congruence.
Qed.

(** [x || ''] is never [undefined] and is a string whenever [x] is a
    string or is falsy. *)
Lemma js_or_empty_cases x :
  js_or x (JStr "") = x /\ truthy x = true \/ js_or x (JStr "") = JStr "" /\ truthy x = false.
Proof. unfold js_or. destruct (truthy x); auto. Qed.

Lemma js_or_empty_not_undefined x : js_or x (JStr "") <> JUndefined.
Proof. unfold js_or. destruct (truthy x) eqn:H; [destruct x|]; done. Qed.

Lemma prop_lookup_in k ps v : prop_lookup k ps = Some v -> In (k, v) ps.
Proof.
  induction ps as [|[k' v'] ps IH]; simpl; [done|].
  destruct (String.eqb_spec k k'); [intros [= <-]; subst; auto|auto].
Qed.

Lemma get_prop_obj ps k :
  get_prop (JObj ps) k = Ret (default JUndefined (prop_lookup k ps)).
Proof. reflexivity. Qed.

#[export] Hint Rewrite get_prop_obj : run.
#[export] Hint Resolve js_or_empty_not_undefined : svc.
