(* ===== verification/Json.v ===== *)
(** [JSON.stringify] and [JSON.parse] on [jsval], as the cache uses
    them: [cacheAddress] stores [JSON.stringify(address)] in Redis and
    [getCachedAddress] reads it back with [JSON.parse].

    Strings are byte strings (the UTF-8 encoding of the JavaScript
    string).  [stringify_value] follows SerializeJSONProperty of the
    ECMAScript specification without replacer or indentation: objects
    drop properties whose value is [undefined], arrays print
    [undefined] as [null], strings are quoted by QuoteJSONString
    ([quote_char]).  [parse_value] is a recursive-descent parser of the
    JSON grammar with fuel; [JSON_parse] gives it one unit of fuel per
    input byte plus one, which [cost_le_length] shows is enough for
    every printed value.  Outside the model: numbers with a fraction or
    an exponent (the parser rejects them), [\u] escapes of surrogate
    code units, and the ordering of integer-like keys. *)

From stdpp Require Import base list option sets.
From Stdlib Require Import String Ascii ZArith NArith DecimalString DecimalN Lia.
From S2P Require Import Prelude JsValue.

Local Open Scope string_scope.
Local Open Scope nat_scope.

Definition dquote : ascii := ascii_of_nat 34.
Definition bslash : ascii := ascii_of_nat 92.
Definition str1 (c : ascii) : string := String c EmptyString.

(** ** JSON.stringify *)

Definition hex_digit (n : nat) : ascii :=
  if n <? 10 then ascii_of_nat (48 + n) else ascii_of_nat (87 + n).

(** QuoteJSONString, one code unit. *)
Definition quote_char (c : ascii) : string :=
  let n := nat_of_ascii c in
  if n =? 34 then String bslash (str1 dquote)
  else if n =? 92 then String bslash (str1 bslash)
  else if n =? 8 then "\b"
  else if n =? 9 then "\t"
  else if n =? 10 then "\n"
  else if n =? 12 then "\f"
  else if n =? 13 then "\r"
  else if n <? 32 then
    String bslash ("u00" ++ String (hex_digit (n / 16)) (str1 (hex_digit (n mod 16))))
  else str1 c.

Fixpoint quote_body (s : string) : string :=
  match s with
  | EmptyString => EmptyString
  | String c s' => quote_char c ++ quote_body s'
  end.

Definition quote (s : string) : string := String dquote (quote_body s ++ str1 dquote).

Definition digits_of_N (n : N) : string := NilEmpty.string_of_uint (N.to_uint n).

(** Number::toString on an integer. *)
Definition number_to_string (n : Z) : string :=
  match n with
  | Zneg p => "-" ++ digits_of_N (Npos p)
  | _ => digits_of_N (Z.to_N n)
  end.

Fixpoint join (xs : list string) : string :=
  match xs with
  | [] => ""
  | [x] => x
  | x :: xs' => x ++ "," ++ join xs'
  end.

(** [None] is JavaScript's [undefined] result. *)
Fixpoint stringify_value (v : jsval) : option string :=
  match v with
  | JUndefined => None
  | JNull => Some "null"
  | JBool b => Some (if b then "true" else "false")
  | JNum n => Some (number_to_string n)
  | JStr s => Some (quote s)
  | JArr l => Some ("[" ++ join (map (fun e => default "null" (stringify_value e)) l) ++ "]")
  | JObj ps =>
      Some ("{" ++ join (flat_map (fun kv =>
                                     match stringify_value kv.2 with
                                     | Some se => [quote kv.1 ++ ":" ++ se]
                                     | None => []
                                     end) ps) ++ "}")
  end.

(** ** JSON.parse *)

Definition is_ws (c : ascii) : bool :=
  let n := nat_of_ascii c in (n =? 32) || (n =? 9) || (n =? 10) || (n =? 13).

Fixpoint skip_ws (s : string) : string :=
  match s with
  | String c s' => if is_ws c then skip_ws s' else s
  | EmptyString => EmptyString
  end.

Definition hex_val (c : ascii) : option nat :=
  let n := nat_of_ascii c in
  if (48 <=? n) && (n <=? 57) then Some (n - 48)
  else if (97 <=? n) && (n <=? 102) then Some (n - 87)
  else if (65 <=? n) && (n <=? 70) then Some (n - 55)
  else None.

Definition hex4 (a b c d : ascii) : option nat :=
  match hex_val a, hex_val b, hex_val c, hex_val d with
  | Some x, Some y, Some z, Some w => Some (((x * 16 + y) * 16 + z) * 16 + w)
  | _, _, _, _ => None
  end.

(** The UTF-8 bytes of a code unit of the basic plane; surrogates are
    outside the model. *)
#[warnings="-abstract-large-number"]
Definition utf8_of_unit (u : nat) : option string :=
  if u <? 128 then Some (str1 (ascii_of_nat u))
  else if u <? 2048 then
    Some (String (ascii_of_nat (192 + u / 64)) (str1 (ascii_of_nat (128 + u mod 64))))
  else if (55296 <=? u) && (u <? 57344) then None
  else Some (String (ascii_of_nat (224 + u / 4096))
               (String (ascii_of_nat (128 + (u / 64) mod 64)) (str1 (ascii_of_nat (128 + u mod 64))))).

Definition simple_escape (e : ascii) : option ascii :=
  let n := nat_of_ascii e in
  if n =? 34 then Some dquote
  else if n =? 92 then Some bslash
  else if n =? 47 then Some (ascii_of_nat 47)
  else if n =? 98 then Some (ascii_of_nat 8)
  else if n =? 102 then Some (ascii_of_nat 12)
  else if n =? 110 then Some (ascii_of_nat 10)
  else if n =? 114 then Some (ascii_of_nat 13)
  else if n =? 116 then Some (ascii_of_nat 9)
  else None.

(** The characters of a string literal after its opening quote, up to
    and including the closing quote; returns the decoded string and
    what follows. *)
Fixpoint parse_chars (s : string) : option (string * string) :=
  match s with
  | EmptyString => None
  | String c s1 =>
      if Ascii.eqb c dquote then Some (EmptyString, s1)
      else if Ascii.eqb c bslash then
        match s1 with
        | EmptyString => None
        | String e s2 =>
            if Ascii.eqb e "u"%char then
              match s2 with
              | String h1 (String h2 (String h3 (String h4 s3))) =>
                  match hex4 h1 h2 h3 h4 with
                  | Some u =>
                      match utf8_of_unit u, parse_chars s3 with
                      | Some bytes, Some (body, rest) => Some (bytes ++ body, rest)
                      | _, _ => None
                      end
                  | None => None
                  end
              | _ => None
              end
            else
              match simple_escape e, parse_chars s2 with
              | Some c', Some (body, rest) => Some (String c' body, rest)
              | _, _ => None
              end
        end
      else if nat_of_ascii c <? 32 then None
      else
        match parse_chars s1 with
        | Some (body, rest) => Some (String c body, rest)
        | None => None
        end
  end.

Definition digit_ctor (n : nat) : Decimal.uint -> Decimal.uint :=
  match n with
  | 0 => Decimal.D0 | 1 => Decimal.D1 | 2 => Decimal.D2 | 3 => Decimal.D3
  | 4 => Decimal.D4 | 5 => Decimal.D5 | 6 => Decimal.D6 | 7 => Decimal.D7
  | 8 => Decimal.D8 | _ => Decimal.D9
  end.

Definition is_digit (c : ascii) : bool :=
  let n := nat_of_ascii c in (48 <=? n) && (n <=? 57).

Fixpoint read_digits (s : string) : Decimal.uint * string :=
  match s with
  | String c s' =>
      if is_digit c then
        let (u, r) := read_digits s' in (digit_ctor (nat_of_ascii c - 48) u, r)
      else (Decimal.Nil, s)
  | EmptyString => (Decimal.Nil, EmptyString)
  end.

(** At least one digit, and no leading zero unless the number is 0. *)
Definition leading_ok (u : Decimal.uint) : bool :=
  match u with
  | Decimal.Nil => false
  | Decimal.D0 Decimal.Nil => true
  | Decimal.D0 _ => false
  | _ => true
  end.

(** A fraction or an exponent follows: outside the model. *)
Definition number_end_ok (s : string) : bool :=
  match s with
  | String c _ => negb (Ascii.eqb c "."%char || Ascii.eqb c "e"%char || Ascii.eqb c "E"%char)
  | EmptyString => true
  end.

Definition parse_number (neg : bool) (s : string) : option (jsval * string) :=
  let (u, r) := read_digits s in
  if leading_ok u && number_end_ok r then
    let n := Z.of_N (N.of_uint u) in Some (JNum (if neg then Z.opp n else n), r)
  else None.

Fixpoint strip_prefix (p s : string) : option string :=
  match p, s with
  | EmptyString, _ => Some s
  | String a p', String b s' => if Ascii.eqb a b then strip_prefix p' s' else None
  | _, _ => None
  end.

(** CreateDataProperty on the object being built: a repeated key
    overwrites the earlier value in place. *)
Fixpoint obj_set (k : string) (v : jsval) (ps : list (string * jsval)) : list (string * jsval) :=
  match ps with
  | [] => [(k, v)]
  | (k', v') :: ps' => if String.eqb k k' then (k', v) :: ps' else (k', v') :: obj_set k v ps'
  end.

Fixpoint parse_value (fuel : nat) (s : string) {struct fuel} : option (jsval * string) :=
  match fuel with
  | O => None
  | S f =>
      match skip_ws s with
      | EmptyString => None
      | String c s1 =>
          if Ascii.eqb c "n"%char then option_map (fun r => (JNull, r)) (strip_prefix "ull" s1)
          else if Ascii.eqb c "t"%char then option_map (fun r => (JBool true, r)) (strip_prefix "rue" s1)
          else if Ascii.eqb c "f"%char then option_map (fun r => (JBool false, r)) (strip_prefix "alse" s1)
          else if Ascii.eqb c dquote then option_map (fun p => (JStr p.1, p.2)) (parse_chars s1)
          else if Ascii.eqb c "["%char then
            match skip_ws s1 with
            | String c2 s2 => if Ascii.eqb c2 "]"%char then Some (JArr [], s2) else parse_items f [] s1
            | EmptyString => None
            end
          else if Ascii.eqb c "{"%char then
            match skip_ws s1 with
            | String c2 s2 => if Ascii.eqb c2 "}"%char then Some (JObj [], s2) else parse_members f [] s1
            | EmptyString => None
            end
          else if Ascii.eqb c "-"%char then parse_number true s1
          else parse_number false (String c s1)
      end
  end
with parse_items (fuel : nat) (acc : list jsval) (s : string) {struct fuel} : option (jsval * string) :=
  match fuel with
  | O => None
  | S f =>
      match parse_value f s with
      | Some (v, r) =>
          match skip_ws r with
          | String c r' =>
              if Ascii.eqb c ","%char then parse_items f (acc ++ [v]) r'
              else if Ascii.eqb c "]"%char then Some (JArr (acc ++ [v]), r')
              else None
          | EmptyString => None
          end
      | None => None
      end
  end
with parse_members (fuel : nat) (acc : list (string * jsval)) (s : string) {struct fuel}
  : option (jsval * string) :=
  match fuel with
  | O => None
  | S f =>
      match skip_ws s with
      | String c s1 =>
          if Ascii.eqb c dquote then
            match parse_chars s1 with
            | Some (k, r) =>
                match skip_ws r with
                | String c2 r2 =>
                    if Ascii.eqb c2 ":"%char then
                      match parse_value f r2 with
                      | Some (v, r3) =>
                          match skip_ws r3 with
                          | String c3 r4 =>
                              if Ascii.eqb c3 ","%char then parse_members f (obj_set k v acc) r4
                              else if Ascii.eqb c3 "}"%char then Some (JObj (obj_set k v acc), r4)
                              else None
                          | EmptyString => None
                          end
                      | None => None
                      end
                    else None
                | EmptyString => None
                end
            | None => None
            end
          else None
      | EmptyString => None
      end
  end.

Definition SyntaxError : exn := mkExn "SyntaxError" "Unexpected token in JSON".

(** [JSON.parse(s)]: one value, surrounded by white space only. *)
Definition JSON_parse (s : string) : outcome jsval :=
  match parse_value (S (String.length s)) s with
  | Some (v, r) => if String.eqb (skip_ws r) "" then Ret v else Throw SyntaxError
  | None => Throw SyntaxError
  end.

(** [JSON.stringify(v)] printed, or the empty string for [undefined]. *)
Definition print (v : jsval) : string := default "" (stringify_value v).

Example stringify_address :
  stringify_value (JObj [("cep", JStr "01001000"); ("street", JStr "Rua A");
                         ("n", JNum (-12)); ("x", JUndefined); ("l", JArr [JUndefined; JBool true])])
  = Some ("{" ++ quote "cep" ++ ":" ++ quote "01001000" ++ "," ++ quote "street" ++ ":"
          ++ quote "Rua A" ++ "," ++ quote "n" ++ ":-12," ++ quote "l" ++ ":[null,true]}").
Proof. reflexivity. Qed.

Example parse_duplicate_key :
  JSON_parse ("{" ++ quote "a" ++ ":1, " ++ quote "b" ++ ":2," ++ quote "a" ++ ":[3 ,{}]}")
  = Ret (JObj [("a", JArr [JNum 3; JObj []]); ("b", JNum 2)]).
Proof. reflexivity. Qed.

Example parse_rejects_leading_zero : JSON_parse "[01]" = Throw SyntaxError.
Proof. reflexivity. Qed.

(** ** Round trip: [JSON.parse(JSON.stringify(v))] gives [v] back *)

(** What may follow a printed value inside a larger document. *)
Definition rest_ok (rest : string) : Prop :=
  match rest with
  | EmptyString => True
  | String c _ => c = ","%char \/ c = "]"%char \/ c = "}"%char
  end.

(** A printed value starts with a character that is neither white space
    nor a closing bracket. *)
Definition head_ok (s : string) : Prop :=
  match s with
  | String c _ => is_ws c = false /\ c <> "]"%char /\ c <> "}"%char
  | EmptyString => False
  end.

(** Fuel the parser spends on a value. *)
Fixpoint cost (v : jsval) : nat :=
  match v with
  | JArr l => S (list_sum (map (fun e => S (cost e)) l))
  | JObj ps => S (list_sum (map (fun kv => S (cost kv.2)) ps))
  | _ => 1
  end.

Lemma quote_char_parse c X :
  parse_chars (quote_char c ++ X) =
  match parse_chars X with Some (b, r) => Some (String c b, r) | None => None end.
Proof. destruct c as [[] [] [] [] [] [] [] []]; reflexivity. Qed.

Lemma quote_body_parse s rest :
  parse_chars (quote_body s ++ String dquote rest) = Some (s, rest).
Proof.
  induction s as [|c s IH]; [reflexivity|].
  cbn [quote_body]. by rewrite string_app_assoc, quote_char_parse, IH.
Qed.

Lemma read_digits_uint u rest :
  rest_ok rest -> read_digits (NilEmpty.string_of_uint u ++ rest) = (u, rest).
Proof.
  intros Hr. induction u; try (simpl; rewrite IHu; reflexivity).
  destruct rest as [|c r]; [reflexivity|]. destruct Hr as [->|[->| ->]]; reflexivity.
Qed.

Lemma nzhead_not_D0 d u : Decimal.nzhead d <> Decimal.D0 u.
Proof. induction d; simpl; congruence. Qed.

(** [N.to_uint] never prints a leading zero. *)
Lemma leading_ok_to_uint n : leading_ok (N.to_uint n) = true.
Proof.
  assert (E : N.to_uint n = Decimal.unorm (N.to_uint n)).
  { by rewrite <- DecimalN.Unsigned.to_of, DecimalN.Unsigned.of_to. }
  rewrite E. unfold Decimal.unorm.
  pose proof (nzhead_not_D0 (N.to_uint n)) as H.
  destruct (Decimal.nzhead (N.to_uint n)); try reflexivity. by destruct (H u).
Qed.

Lemma number_end_ok_rest rest : rest_ok rest -> number_end_ok rest = true.
Proof. destruct rest; [done|]. by intros [->|[->| ->]]. Qed.

Lemma parse_number_digits neg n rest :
  rest_ok rest ->
  parse_number neg (digits_of_N n ++ rest) =
  Some (JNum (if neg then Z.opp (Z.of_N n) else Z.of_N n), rest).
Proof.
  intros Hr. unfold parse_number, digits_of_N. rewrite read_digits_uint by done.
  rewrite leading_ok_to_uint, number_end_ok_rest by done. simpl.
  by rewrite DecimalN.Unsigned.of_to.
Qed.

Lemma parse_value_digits f n rest :
  parse_value (S f) (digits_of_N n ++ rest) = parse_number false (digits_of_N n ++ rest).
Proof.
  pose proof (leading_ok_to_uint n) as H. unfold digits_of_N in *.
  destruct (N.to_uint n); [discriminate|..]; reflexivity.
Qed.

Lemma parse_num f z rest :
  1 <= f -> rest_ok rest -> parse_value f (number_to_string z ++ rest) = Some (JNum z, rest).
Proof.
  intros Hf Hr. destruct f as [|f]; [lia|].
  destruct z as [|p|p]; cbn [number_to_string].
  - by rewrite parse_value_digits, parse_number_digits.
  - by rewrite parse_value_digits, parse_number_digits.
  - rewrite string_app_assoc.
    transitivity (parse_number true (digits_of_N (Npos p) ++ rest)); [reflexivity|].
    by rewrite parse_number_digits.
Qed.

Lemma parse_str f s rest : 1 <= f -> parse_value f (quote s ++ rest) = Some (JStr s, rest).
Proof.
  intros Hf. destruct f as [|f]; [lia|]. unfold quote.
  transitivity (option_map (fun p => (JStr p.1, p.2))
                  (parse_chars ((quote_body s ++ str1 dquote) ++ rest))); [reflexivity|].
  rewrite string_app_assoc. change (str1 dquote ++ rest) with (String dquote rest).
  by rewrite quote_body_parse.
Qed.

Lemma print_json v : is_json v = true -> stringify_value v = Some (print v).
Proof. by destruct v. Qed.

Lemma print_arr l :
  forallb is_json l = true -> print (JArr l) = "[" ++ join (map print l) ++ "]".
Proof.
  intros H.
  change (print (JArr l))
    with ("[" ++ join (map (fun e => default "null" (stringify_value e)) l) ++ "]").
  do 3 f_equal. apply map_ext_in. intros e He. rewrite forallb_forall in H.
  by rewrite print_json by auto.
Qed.

Definition member_string (kv : string * jsval) : string := quote kv.1 ++ ":" ++ print kv.2.

Lemma print_obj ps :
  forallb (fun kv => is_json kv.2) ps = true ->
  print (JObj ps) = "{" ++ join (map member_string ps) ++ "}".
Proof.
  intros H.
  change (print (JObj ps))
    with ("{" ++ join (flat_map (fun kv => match stringify_value kv.2 with
                                          | Some se => [quote kv.1 ++ ":" ++ se]
                                          | None => [] end) ps) ++ "}").
  do 3 f_equal. induction ps as [|[k e] ps IH]; [done|]. simpl in H |- *.
  apply andb_prop in H as [He Hps]. by rewrite print_json, IH.
Qed.

Lemma head_ok_print v : is_json v = true -> head_ok (print v).
Proof.
  intros Hv. destruct v as [| |[]|z| | |]; try done; try (simpl; repeat split; done).
  unfold print; cbn [stringify_value default]. destruct z as [|p|p]; [| |simpl; repeat split; done];
    cbn [number_to_string]; unfold digits_of_N;
    match goal with |- context [N.to_uint ?n] =>
      pose proof (leading_ok_to_uint n) as H; destruct (N.to_uint n) end;
    try discriminate; simpl; repeat split; done.
Qed.

Lemma head_ok_app s X : head_ok s -> head_ok (s ++ X).
Proof. by destruct s. Qed.

Lemma join_cons x xs : exists Z, join (x :: xs) = x ++ Z.
Proof.
  destruct xs as [|y ys]; [exists ""; by rewrite string_app_nil_r|].
  eexists. reflexivity.
Qed.

Lemma skip_ws_head s : head_ok s -> skip_ws s = s.
Proof. destruct s as [|c s]; [done|]. intros (Hws & _). simpl. by rewrite Hws. Qed.

(** The induction hypothesis of the round trip, for one value. *)
Definition parses_back (v : jsval) : Prop :=
  is_json v = true -> forall f rest, cost v <= f -> rest_ok rest ->
  parse_value f (print v ++ rest) = Some (v, rest).

Lemma parse_items_print l :
  Forall parses_back l -> l <> [] -> forallb is_json l = true ->
  forall f acc rest, list_sum (map (fun e => S (cost e)) l) <= f -> rest_ok rest ->
  parse_items f acc (join (map print l) ++ "]" ++ rest) = Some (JArr (acc ++ l), rest).
Proof.
  induction 1 as [|e l He Hl IH]; [done|]. intros _ Hj f acc rest Hf Hr.
  apply andb_prop in Hj as [Hje Hjl]. simpl in Hf. destruct f as [|f]; [lia|].
  destruct l as [|e' l'].
  - cbn [map join]. cbn [parse_items]. rewrite He by (simpl; auto || lia).
    reflexivity.
  - change (join (map print (e :: e' :: l'))) with (print e ++ "," ++ join (map print (e' :: l'))).
    cbn [parse_items]. rewrite !string_app_assoc, He by (simpl; auto || lia).
    change (skip_ws ("," ++ ?X)) with (String ","%char X).
    cbv beta iota. rewrite Ascii.eqb_refl. cbv beta iota.
    rewrite IH by (done || lia). by rewrite <- app_assoc.
Qed.

Lemma obj_set_fresh (k : string) (v : jsval) (ps : list (string * jsval)) :
  k ∉ map fst ps -> obj_set k v ps = (ps ++ [(k, v)])%list.
Proof.
  induction ps as [|[k' v'] ps IH]; [done|]. intros Hk. simpl.
  destruct (String.eqb_spec k k'); [subst; set_solver|]. rewrite IH; [done|set_solver].
Qed.

(** Consume literal punctuation: white-space skipping on a known
    character and comparisons of known characters. *)
Ltac json_step :=
  repeat first
    [ rewrite string_app_assoc
    | match goal with
      | |- context [String ?c ?X ++ ?Y] => change (String c X ++ Y) with (String c (X ++ Y))
      | |- context [EmptyString ++ ?X] => change (EmptyString ++ X) with X
      | |- context [str1 ?c ++ ?X] => change (str1 c ++ X) with (String c X)
      | |- context [skip_ws (String ?c ?X)] => change (skip_ws (String c X)) with (String c X)
      | |- context [Ascii.eqb ?a ?b] =>
          let r := eval vm_compute in (Ascii.eqb a b) in
          lazymatch r with
          | true => change (Ascii.eqb a b) with true
          | false => change (Ascii.eqb a b) with false
          end
      end
    | progress cbv beta iota ].

Lemma parse_members_print ps :
  Forall (fun kv => parses_back kv.2) ps -> ps <> [] ->
  forallb (fun kv => is_json kv.2) ps = true ->
  forall f acc rest, NoDup (map fst (acc ++ ps)) ->
  list_sum (map (fun kv => S (cost kv.2)) ps) <= f -> rest_ok rest ->
  parse_members f acc (join (map member_string ps) ++ "}" ++ rest) = Some (JObj (acc ++ ps), rest).
Proof.
  induction 1 as [|[k e] ps He Hps IH]; [done|]. intros _ Hj f acc rest Hnd Hf Hr.
  apply andb_prop in Hj as [Hje Hjl]. simpl in Hf, Hje. destruct f as [|f]; [lia|].
  rewrite map_app in Hnd. simpl in Hnd.
  assert (Hk : k ∉ map fst acc) by (apply NoDup_app in Hnd as (_ & Hd & _); set_solver).
  destruct ps as [|kv' ps'].
  - cbn [map join]. unfold member_string, quote at 1. cbn [parse_members fst snd].
    json_step. rewrite quote_body_parse. json_step.
    rewrite He by (simpl; auto || lia). json_step.
    by rewrite obj_set_fresh.
  - change (join (map member_string ((k, e) :: kv' :: ps')))
      with (member_string (k, e) ++ "," ++ join (map member_string (kv' :: ps'))).
    unfold member_string at 1. unfold quote at 1. cbn [parse_members fst snd].
    json_step. rewrite quote_body_parse. json_step.
    rewrite He by (simpl; auto || lia). json_step.
    rewrite obj_set_fresh by done.
    replace (acc ++ (k, e) :: kv' :: ps')%list with ((acc ++ [(k, e)]) ++ kv' :: ps')%list
      by (by rewrite <- app_assoc).
    apply IH; [done|done| |lia|done].
    rewrite <- app_assoc, map_app. exact Hnd.
Qed.

(** After an opening bracket, a printed value is not mistaken for the
    closing one. *)
Lemma parse_open_arr f s :
  head_ok s -> parse_value (S f) (String "["%char s) = parse_items f [] s.
Proof.
  intros H.
  change (parse_value (S f) (String "["%char s)) with
    (match skip_ws s with
     | String c2 s2 => if Ascii.eqb c2 "]"%char then Some (JArr [], s2) else parse_items f [] s
     | EmptyString => None
     end).
  rewrite (skip_ws_head s H). destruct s as [|c s']; [done|].
  destruct H as (_ & Hb & _). by destruct (Ascii.eqb_spec c "]"%char).
Qed.

Lemma parse_open_obj f s :
  head_ok s -> parse_value (S f) (String "{"%char s) = parse_members f [] s.
Proof.
  intros H.
  change (parse_value (S f) (String "{"%char s)) with
    (match skip_ws s with
     | String c2 s2 => if Ascii.eqb c2 "}"%char then Some (JObj [], s2) else parse_members f [] s
     | EmptyString => None
     end).
  rewrite (skip_ws_head s H). destruct s as [|c s']; [done|].
  destruct H as (_ & _ & Hc). by destruct (Ascii.eqb_spec c "}"%char).
Qed.

Lemma head_ok_join {A} (g : A -> string) x xs X :
  head_ok (g x) -> head_ok (join (map g (x :: xs)) ++ X).
Proof.
  intros H. destruct (join_cons (g x) (map g xs)) as [Z HZ]. cbn [map]. rewrite HZ.
  rewrite string_app_assoc. by apply head_ok_app.
Qed.

Lemma parse_print v : parses_back v.
Proof.
  induction v as [| |b|z|s|l IH|ps IH] using jsval_ind'; intros Hj f rest Hf Hr;
    try discriminate; cbn [cost] in Hf.
  - destruct f; [lia|]. reflexivity.
  - destruct f; [lia|]. by destruct b.
  - by apply parse_num.
  - by apply parse_str.
  - destruct l as [|e l']; [destruct f; [lia|]; reflexivity|].
    cbn [is_json] in Hj. rewrite print_arr by done. destruct f as [|f]; [lia|].
    rewrite !string_app_assoc. change ("[" ++ ?X) with (String "["%char X).
    rewrite parse_open_arr.
    + apply parse_items_print; (done || lia).
    + apply head_ok_join, head_ok_print. cbn in Hj. by apply andb_prop in Hj as [-> _].
  - destruct ps as [|[k e] ps']; [destruct f; [lia|]; reflexivity|].
    cbn [is_json] in Hj. apply andb_prop in Hj as [Hnd Hj]. apply bool_decide_eq_true in Hnd.
    rewrite print_obj by done. destruct f as [|f]; [lia|].
    rewrite !string_app_assoc. change ("{" ++ ?X) with (String "{"%char X).
    rewrite parse_open_obj.
    + apply parse_members_print; (done || lia).
    + apply head_ok_join. by destruct k.
Qed.

Lemma head_ok_length s : head_ok s -> 1 <= String.length s.
Proof. destruct s; simpl; [done|lia]. Qed.

Lemma join_length xs :
  list_sum (map (fun x => S (String.length x)) xs) <= S (String.length (join xs)).
Proof.
  induction xs as [|x xs IH]; [simpl; lia|].
  destruct xs as [|y ys]; [simpl; lia|].
  change (join (x :: y :: ys)) with (x ++ "," ++ join (y :: ys)).
  rewrite !string_length_app. cbn [map list_sum foldr String.length] in *. lia.
Qed.

Lemma list_sum_map_le {A} (g h : A -> nat) l :
  Forall (fun x => g x <= h x) l -> list_sum (map g l) <= list_sum (map h l).
Proof. induction 1; simpl; lia. Qed.

(** The fuel [JSON_parse] gives is enough for every printed value. *)
Lemma cost_le_length v : is_json v = true -> cost v <= String.length (print v).
Proof.
  induction v as [| |b|z|s|l IH|ps IH] using jsval_ind'; intros Hj; try discriminate;
    try (apply head_ok_length, head_ok_print; done).
  - cbn [is_json] in Hj. rewrite print_arr by done. cbn [cost].
    rewrite !string_length_app. simpl.
    pose proof (join_length (map print l)) as J. rewrite map_map in J.
    enough (list_sum (map (fun e => S (cost e)) l)
            <= list_sum (map (fun e => S (String.length (print e))) l)) by lia.
    apply list_sum_map_le. rewrite List.Forall_forall in IH |- *. intros e He.
    rewrite forallb_forall in Hj. specialize (IH e He (Hj e He)). lia.
  - cbn [is_json] in Hj. apply andb_prop in Hj as [_ Hj]. rewrite print_obj by done.
    cbn [cost]. rewrite !string_length_app. simpl.
    pose proof (join_length (map member_string ps)) as J. rewrite map_map in J.
    enough (list_sum (map (fun kv => S (cost kv.2)) ps)
            <= list_sum (map (fun kv => S (String.length (member_string kv))) ps)) by lia.
    apply list_sum_map_le. rewrite List.Forall_forall in IH |- *. intros [k e] He.
    rewrite forallb_forall in Hj. specialize (IH _ He (Hj _ He)).
    unfold member_string. rewrite !string_length_app. simpl in *. lia.
Qed.

Lemma JSON_parse_print v : is_json v = true -> JSON_parse (print v) = Ret v.
Proof.
  intros Hj.
  pose proof (parse_print v Hj (S (String.length (print v))) ""
                ltac:(pose proof (cost_le_length v Hj); lia) I) as H.
  rewrite string_app_nil_r in H. unfold JSON_parse. by rewrite H.
Qed.

Lemma print_nonempty v : is_json v = true -> print v <> ""%string.
Proof. intros Hj. pose proof (head_ok_print v Hj). by destruct (print v). Qed.
