(* ===== verification/Entities.v ===== *)
(** The domain entities of src/src/domain/entities/Client.ts.

    [Client.t] is the request body the service receives as a [Client]:
    every field of the TypeScript interface may be missing at run time
    (the body is whatever the caller sent), so each is an [option]
    ([None] is [undefined]); the fields the caller is meant to send are
    strings.  [Address.t] is the object literal the providers build:
    its [cep] is the postal code the service was called with, the other
    fields are whatever [data.field || ''] evaluated to. *)

From stdpp Require Import base list option.
From Stdlib Require Import String ZArith.
From S2P Require Import Prelude JsValue Json.

Local Open Scope string_scope.

Module Address.
(** [interface Address { cep; street; neighborhood; city; state }] *)
Record t := mk {
  cep : string;
  street : jsval;
  neighborhood : jsval;
  city : jsval;
  state : jsval
}.

(** The object as JavaScript holds it, properties in the order of
    the literal that builds it. *)
Definition to_js (a : t) : jsval :=
  JObj [("cep", JStr a.(cep)); ("street", a.(street));
        ("neighborhood", a.(neighborhood)); ("city", a.(city)); ("state", a.(state))].

(** Every field can be printed by [JSON.stringify]. *)
Definition fields_json (a : t) : bool :=
  is_json a.(street) && is_json a.(neighborhood) && is_json a.(city) && is_json a.(state).
End Address.

Module Client.
(** [interface Client { id?; name; email; phone; cep; address? }] *)
Record t := mk {
  id : option string;
  name : option string;
  email : option string;
  phone : option string;
  cep : option string;
  address : option jsval
}.

Definition field (o : option string) : jsval :=
  match o with Some s => JStr s | None => JUndefined end.

(** [client.id = uuidv4(); client.address = address;] *)
Definition assign (c : t) (uuid : string) (addr : jsval) : t :=
  mk (Some uuid) c.(name) c.(email) c.(phone) c.(cep) (Some addr).
End Client.

(** ** Lemmas *)

Lemma address_to_js_json a :
  Address.fields_json a = true -> is_json (Address.to_js a) = true.
Proof.
  unfold Address.fields_json, Address.to_js. intros H.
  repeat (apply andb_prop in H as [H ?]). simpl. by repeat match goal with
  | Hf : is_json _ = true |- _ => rewrite Hf; clear Hf end.
Qed.

Lemma field_truthy o : truthy (Client.field o) = true <-> exists s, o = Some s /\ s <> "".
Proof.
  destruct o as [s|]; cbn [Client.field].
  - rewrite truthy_str. split; [eauto|]. by intros (? & [= ->] & ?).
  - split; [done|]. by intros (? & ? & ?).
Qed.
