(* ===== verification/Redis.v ===== *)
(** The Redis store behind [redisClient]
    (src/src/infrastructure/cache/redisClient.ts), as the service uses
    it: [GET key] and [SET key value EX seconds].

    The store maps keys to a value and an optional expiry instant, in
    seconds of the server clock.  Expiry is enforced by the server
    (spec section 4.2): a key whose expiry instant has been reached
    reads as missing.  [SET] with [EX] replaces the value and the
    expiry of the key; a non-positive [EX] is an error of the server.
    Connection handling ([createClient], [connect], the ['error']
    listener) is I/O and is not modelled. *)

From stdpp Require Import base list option gmap strings.
From Stdlib Require Import String ZArith Lia.
From S2P Require Import Prelude.

Local Open Scope Z_scope.

Module Redis.
Record entry := mkEntry { value : string; expires_at : option Z }.

Abbreviation store := (gmap string entry).

Definition expired (e : entry) (now : Z) : bool :=
  match e.(expires_at) with Some t => t <=? now | None => false end.

(** [GET key] at instant [now]: [null] ([None]) when the key is
    missing or expired. *)
Definition get (k : string) (now : Z) (st : store) : option string :=
  match st !! k with
  | Some e => if expired e now then None else Some e.(value)
  | None => None
  end.

Definition invalid_expire : exn :=
  mkExn "ReplyError" "ERR invalid expire time in 'set' command".

(** [SET key value EX ttl] at instant [now]. *)
Definition set_ex (k v : string) (ttl now : Z) (st : store) : outcome store :=
  if ttl <=? 0 then Throw invalid_expire
  else Ret (<[k := mkEntry v (Some (now + ttl))]> st).

(** ** Lemmas *)

Lemma get_set_ex_same k v ttl now now' st st' :
  set_ex k v ttl now st = Ret st' -> now' < now + ttl -> get k now' st' = Some v.
Proof.
  unfold set_ex, get, expired. destruct (Z.leb_spec ttl 0); [done|].
  intros [= <-] Hlt. rewrite lookup_insert_eq. simpl.
  destruct (Z.leb_spec (now + ttl) now'); [lia|done].
Qed.

Lemma get_set_ex_expired k v ttl now now' st st' :
  set_ex k v ttl now st = Ret st' -> now + ttl <= now' -> get k now' st' = None.
Proof.
  unfold set_ex, get, expired. destruct (Z.leb_spec ttl 0); [done|].
  intros [= <-] Hle. rewrite lookup_insert_eq. simpl.
  destruct (Z.leb_spec (now + ttl) now'); [done|lia].
Qed.

Lemma get_set_ex_other k k' v ttl now now' st st' :
  k <> k' -> set_ex k v ttl now st = Ret st' -> get k' now' st' = get k' now' st.
Proof.
  unfold set_ex, get. intros Hne. destruct (Z.leb_spec ttl 0); [done|].
  intros [= <-]. by rewrite lookup_insert_ne.
Qed.

Lemma set_ex_pos k v ttl now st :
  0 < ttl -> set_ex k v ttl now st = Ret (<[k := mkEntry v (Some (now + ttl))]> st).
Proof. unfold set_ex. intros H. destruct (Z.leb_spec ttl 0); [lia|done]. Qed.
End Redis.
