(* ===== verification/Repositories.v ===== *)
(** The two repository interfaces of src/src/domain/repositories, as
    type classes, and the in-memory [AddressRepositoryImpl] of
    src/src/interfaces/repositories/AddressRepositoryImpl.ts.

    Each interface is a class of operations ([Ops], one field per
    method of the TypeScript interface, each an asynchronous method in
    the monad [M] over the repository's own state) and a class of laws
    ([Laws]) that states what the service may rely on, in terms of an
    abstraction [contents] of the state.  The service is verified
    against the laws; each implementation discharges them.

    [AddressRepositoryImpl] keeps its addresses in a module-level array
    shared by every instance: the model has one list of addresses in
    the world, which is that array. *)

From stdpp Require Import base list option.
From Stdlib Require Import String ZArith.
From S2P Require Import Prelude JsValue Entities.


Module ClientRepository.
(** [interface ClientRepository] *)
Class Ops (R : Type) := {
  save : Client.t -> M R Client.t;
  findByCep : string -> M R (option Client.t);
  findAll : Z -> Z -> M R (list Client.t);
  findById : string -> M R (option Client.t);
  deleteById : string -> M R unit;
  findByName : string -> Z -> Z -> M R (list Client.t);
  findByEmailOrPhone : string -> string -> M R (option Client.t)
}.

(** A stored client that shares the email or the phone. *)
Definition clashes (email phone : string) (c : Client.t) : Prop :=
  c.(Client.email) = Some email \/ c.(Client.phone) = Some phone.

(** What the service relies on.  [findByEmailOrPhone] is a read that
    answers [null] exactly when no stored client clashes; [save]
    either stores one more client, the one it returns, which keeps the
    name, email and phone it was given and has an address, or fails
    and stores nothing. *)
Class Laws (R : Type) `{!Ops R} := {
  contents : R -> list Client.t;
  findByEmailOrPhone_spec : forall e p r, exists o,
    findByEmailOrPhone e p r = (Ret o, r) /\
    (o = None <-> Forall (fun c => ~ clashes e p c) (contents r)) /\
    (forall c, o = Some c -> clashes e p c);
  save_spec : forall c r,
    match save c r with
    | (Ret c', r') =>
        contents r' = contents r ++ [c'] /\
        c'.(Client.name) = c.(Client.name) /\ c'.(Client.email) = c.(Client.email) /\
        c'.(Client.phone) = c.(Client.phone) /\
        (is_Some c.(Client.address) -> is_Some c'.(Client.address))
    | (Throw _, r') => r' = r
    end
}.
End ClientRepository.

Module AddressRepository.
(** [interface AddressRepository] *)
Class Ops (A : Type) := {
  findByCep : string -> M A (option Address.t);
  save : Address.t -> M A unit
}.

(** [save] appends; [findByCep] returns the first address saved for
    the postal code. *)
Class Laws (A : Type) `{!Ops A} := {
  contents : A -> list Address.t;
  save_spec : forall a s, exists s',
    save a s = (Ret tt, s') /\ contents s' = contents s ++ [a];
  findByCep_spec : forall k s,
    findByCep k s = (Ret (find (fun a => String.eqb a.(Address.cep) k) (contents s)), s)
}.
End AddressRepository.

(** ** AddressRepositoryImpl *)

Module AddressRepositoryImpl.
(** [const addresses: Address[] = []] *)
Abbreviation addresses := (list Address.t).

(** [addresses.find(address => address.cep === cep) || null] *)
Definition findByCep (cep : string) : M addresses (option Address.t) :=
  fun l => (Ret (find (fun a => String.eqb a.(Address.cep) cep) l), l).

(** [addresses.push(address)] *)
Definition save (address : Address.t) : M addresses unit :=
  fun l => (Ret tt, l ++ [address]).

#[export] Instance ops : AddressRepository.Ops addresses :=
  {| AddressRepository.findByCep := findByCep; AddressRepository.save := save |}.

#[export] Instance laws : AddressRepository.Laws addresses.
Proof.
  refine {| AddressRepository.contents := fun l => l |}.
  - intros a s. by eexists.
  - done.
Defined.
End AddressRepositoryImpl.
