(* ===== verification/World.v ===== *)
(** The world [ClientService] runs in, and its primitive effects.

    [World R A] holds the client repository's state ([R]), the address
    repository's state ([A]), the Redis store, the server clock (in
    seconds, used for expiry), the network as an oracle from URL to the
    body axios resolves with ([None]: axios rejects, as it does for a
    network error or a non-2xx status), the source of [uuidv4()]
    values, and a log of every external call in the order the code
    makes them.  The log is how the theorems state which calls happen
    and in which order (spec section 5: every external call is a
    suspension point, awaited in sequence). *)

From stdpp Require Import base list option gmap strings.
From Stdlib Require Import String ZArith.
From S2P Require Import Prelude JsValue Json Entities Redis Repositories.

Inductive event : Type :=
| EvRedisGet (key : string)
| EvRedisSet (key value : string) (ttl : Z)
| EvHttpGet (url : string)
| EvConsoleError (msg : string) (err : exn)
| EvFindByEmailOrPhone (email phone : string)
| EvClientSave (c : Client.t)
| EvAddressSave (a : Address.t)
| EvUuid (id : string)
| EvFindAll (page limit : Z)
| EvFindById (id : string)
| EvDeleteById (id : string)
| EvFindByName (name : string) (page limit : Z).

Record World (R A : Type) := mkWorld {
  w_clients : R;
  w_addresses : A;
  w_redis : Redis.store;
  w_now : Z;
  w_net : string -> option jsval;
  w_uuid : nat -> string;
  w_next : nat;
  w_log : list event
}.
Arguments mkWorld {R A}.
Arguments w_clients {R A}. Arguments w_addresses {R A}. Arguments w_redis {R A}.
Arguments w_now {R A}. Arguments w_net {R A}. Arguments w_uuid {R A}.
Arguments w_next {R A}. Arguments w_log {R A}.

(** The service's monad: state is the whole world. *)
Abbreviation SM R A := (M (World R A)).

Section Effects.
Context {R A : Type}.

Definition set_clients (r : R) (w : World R A) : World R A :=
  mkWorld r w.(w_addresses) w.(w_redis) w.(w_now) w.(w_net) w.(w_uuid) w.(w_next) w.(w_log).
Definition set_addresses (a : A) (w : World R A) : World R A :=
  mkWorld w.(w_clients) a w.(w_redis) w.(w_now) w.(w_net) w.(w_uuid) w.(w_next) w.(w_log).
Definition set_redis (st : Redis.store) (w : World R A) : World R A :=
  mkWorld w.(w_clients) w.(w_addresses) st w.(w_now) w.(w_net) w.(w_uuid) w.(w_next) w.(w_log).
Definition set_next (n : nat) (w : World R A) : World R A :=
  mkWorld w.(w_clients) w.(w_addresses) w.(w_redis) w.(w_now) w.(w_net) w.(w_uuid) n w.(w_log).
(** Time passes between requests. *)
Definition set_now (t : Z) (w : World R A) : World R A :=
  mkWorld w.(w_clients) w.(w_addresses) w.(w_redis) t w.(w_net) w.(w_uuid) w.(w_next) w.(w_log).
Definition log_app (w : World R A) (evs : list event) : World R A :=
  mkWorld w.(w_clients) w.(w_addresses) w.(w_redis) w.(w_now) w.(w_net) w.(w_uuid) w.(w_next)
    (w.(w_log) ++ evs).

Definition log (ev : event) : SM R A unit := fun w => (Ret tt, log_app w [ev]).

(** [await redisClient.get(key)] *)
Definition redis_get (key : string) : SM R A (option string) :=
  fun w => (Ret (Redis.get key w.(w_now) w.(w_redis)), log_app w [EvRedisGet key]).

(** [await redisClient.set(key, value, { EX: ttl })] *)
Definition redis_set (key value : string) (ttl : Z) : SM R A unit :=
  fun w =>
    let w1 := log_app w [EvRedisSet key value ttl] in
    match Redis.set_ex key value ttl w.(w_now) w.(w_redis) with
    | Ret st => (Ret tt, set_redis st w1)
    | Throw e => (Throw e, w1)
    end.

Definition AxiosError : exn := mkExn "AxiosError" "Request failed".

(** [(await axios.get(url)).data] *)
Definition axios_get (url : string) : SM R A jsval :=
  fun w =>
    let w1 := log_app w [EvHttpGet url] in
    match w.(w_net) url with
    | Some data => (Ret data, w1)
    | None => (Throw AxiosError, w1)
    end.

(** [console.error(msg, error)] *)
Definition console_error (msg : string) (err : exn) : SM R A unit := log (EvConsoleError msg err).

(** [uuidv4()] *)
Definition uuidv4 : SM R A string :=
  fun w => let id := w.(w_uuid) w.(w_next) in (Ret id, log_app (set_next (S w.(w_next)) w) [EvUuid id]).

(** A call of the client repository, logged. *)
Definition on_clients {X} (ev : event) (c : M R X) : SM R A X :=
  let* _ := log ev in focus w_clients set_clients c.

(** A call of the address repository. *)
Definition on_addresses {X} (c : M A X) : SM R A X := focus w_addresses set_addresses c.
End Effects.

(** ** Lemmas on the world *)

Section WorldLemmas.
Context {R A : Type}.

Lemma log_app_app (w : World R A) evs1 evs2 :
  log_app (log_app w evs1) evs2 = log_app w (evs1 ++ evs2).
Proof. unfold log_app; simpl. by rewrite app_assoc. Qed.

Lemma log_app_nil (w : World R A) : log_app w [] = w.
Proof. destruct w; unfold log_app; simpl. by rewrite app_nil_r. Qed.

Lemma w_log_log_app (w : World R A) evs : (log_app w evs).(w_log) = w.(w_log) ++ evs.
Proof. reflexivity. Qed.

Lemma set_redis_log_app st (w : World R A) evs :
  set_redis st (log_app w evs) = log_app (set_redis st w) evs.
Proof. reflexivity. Qed.

Lemma set_addresses_log_app s (w : World R A) evs :
  set_addresses s (log_app w evs) = log_app (set_addresses s w) evs.
Proof. reflexivity. Qed.

Lemma set_clients_log_app' r (w : World R A) evs :
  set_clients r (log_app w evs) = log_app (set_clients r w) evs.
Proof. reflexivity. Qed.

Lemma set_next_log_app n (w : World R A) evs :
  set_next n (log_app w evs) = log_app (set_next n w) evs.
Proof. reflexivity. Qed.
End WorldLemmas.

#[export] Hint Rewrite @log_app_app @log_app_nil @w_log_log_app @set_redis_log_app
  @set_addresses_log_app @set_clients_log_app' @set_next_log_app : run.
