(* ===== verification/Providers.v ===== *)
(** Address resolution: [fetchAddressFromViaCEP],
    [fetchAddressFromApiCEP] and [fetchAddress] of
    src/src/application/services/ClientService.ts (lines 42-86).

    Each provider is an HTTP request ([axios_get]) followed by a pure
    interpretation of the body ([parse_viacep], [parse_apicep]): a
    "not found" answer gives [null] ([None]), anything else the
    address, each field normalised by [data.field || ''].  Reading a
    field of a [null] body throws a [TypeError], as JavaScript does.
    [fetchAddress] tries the providers in the order of its [services]
    array; a provider that throws is logged with [console.error] and
    the next one is tried; the first non-null address is returned; when
    every provider is exhausted the result is [null].

    [resolve] is the contract of spec section 4.1 as a pure function of
    the network: the first provider whose answer is a well-formed
    success wins.  [fetchAddress_spec] proves that [fetchAddress]
    computes it, and gives the exact sequence of calls it makes. *)

From stdpp Require Import base list option.
From Stdlib Require Import String ZArith.
From S2P Require Import Prelude JsValue Json Entities World.

Local Open Scope string_scope.

Section Providers.
Context {R A : Type}.

Definition viacep_url (cep : string) : string := "https://viacep.com.br/ws/" ++ cep ++ "/json/".
Definition apicep_url (cep : string) : string := "https://cdn.apicep.com/file/apicep/" ++ cep ++ ".json".

(** Lines 62-71: [if (response.data.erro) return null; return {...}]. *)
Definition parse_viacep (cep : string) (data : jsval) : outcome (option Address.t) :=
  match get_prop data "erro" with
  | Throw e => Throw e
  | Ret erro =>
      if truthy erro then Ret None
      else
        match field_or_empty data "logradouro", field_or_empty data "bairro",
              field_or_empty data "localidade", field_or_empty data "uf" with
        | Ret street, Ret neighborhood, Ret city, Ret state =>
            Ret (Some (Address.mk cep street neighborhood city state))
        | Throw e, _, _, _ | _, Throw e, _, _ | _, _, Throw e, _ | _, _, _, Throw e => Throw e
        end
  end.

(** Lines 76-85: [if (response.data.status !== 200) return null; return {...}]. *)
Definition parse_apicep (cep : string) (data : jsval) : outcome (option Address.t) :=
  match get_prop data "status" with
  | Throw e => Throw e
  | Ret status =>
      if negb (js_strict_eq status (JNum 200)) then Ret None
      else
        match field_or_empty data "address", field_or_empty data "district",
              field_or_empty data "city", field_or_empty data "state" with
        | Ret street, Ret neighborhood, Ret city, Ret state =>
            Ret (Some (Address.mk cep street neighborhood city state))
        | Throw e, _, _, _ | _, Throw e, _, _ | _, _, Throw e, _ | _, _, _, Throw e => Throw e
        end
  end.

(** [private async fetchAddressFromViaCEP(cep)] *)
Definition fetchAddressFromViaCEP (cep : string) : SM R A (option Address.t) :=
  let* data := axios_get (viacep_url cep) in
  of_outcome (parse_viacep cep data).

(** [private async fetchAddressFromApiCEP(cep)] *)
Definition fetchAddressFromApiCEP (cep : string) : SM R A (option Address.t) :=
  let* data := axios_get (apicep_url cep) in
  of_outcome (parse_apicep cep data).

(** [const services = [this.fetchAddressFromViaCEP, this.fetchAddressFromApiCEP]],
    each with the [name] the error message prints. *)
Definition services : list (string * (string -> SM R A (option Address.t))) :=
  [("fetchAddressFromViaCEP", fetchAddressFromViaCEP);
   ("fetchAddressFromApiCEP", fetchAddressFromApiCEP)].

Definition fetch_error_message (name : string) : string :=
  "Error fetching address from " ++ name ++ ":".

(** [for (const service of services) { try { ...; if (address) return address; }
    catch (error) { console.error(...) } } return null;] *)
Fixpoint try_services (svcs : list (string * (string -> SM R A (option Address.t)))) (cep : string)
  : SM R A (option Address.t) :=
  match svcs with
  | [] => ret None
  | (name, service) :: rest =>
      let* address :=
        catch (service cep)
              (fun error => let* _ := console_error (fetch_error_message name) error in ret None) in
      match address with
      | Some a => ret (Some a)
      | None => try_services rest cep
      end
  end.

(** [private async fetchAddress(cep)] *)
Definition fetchAddress (cep : string) : SM R A (option Address.t) := try_services services cep.
End Providers.

(** ** The contract: first success wins *)

(** What one provider answers, given the network. *)
Definition provider_outcome (net : string -> option jsval) (url : string)
           (parse : jsval -> outcome (option Address.t)) : outcome (option Address.t) :=
  match net url with
  | Some data => parse data
  | None => Throw AxiosError
  end.

(** The calls one provider makes: the request, then the error report
    if it failed. *)
Definition provider_trace (name url : string) (o : outcome (option Address.t)) : list event :=
  EvHttpGet url :: match o with Throw e => [EvConsoleError (fetch_error_message name) e] | Ret _ => [] end.

Definition success (o : outcome (option Address.t)) : option Address.t :=
  match o with Ret (Some a) => Some a | _ => None end.

(** [resolve(postalCode) -> Address | not-found]: the first provider,
    in order, whose answer is a success. *)
Definition resolve (net : string -> option jsval) (cep : string) : option Address.t :=
  match success (provider_outcome net (viacep_url cep) (parse_viacep cep)) with
  | Some a => Some a
  | None => success (provider_outcome net (apicep_url cep) (parse_apicep cep))
  end.

Definition fetch_trace (net : string -> option jsval) (cep : string) : list event :=
  let o1 := provider_outcome net (viacep_url cep) (parse_viacep cep) in
  provider_trace "fetchAddressFromViaCEP" (viacep_url cep) o1 ++
  match success o1 with
  | Some _ => []
  | None => provider_trace "fetchAddressFromApiCEP" (apicep_url cep)
              (provider_outcome net (apicep_url cep) (parse_apicep cep))
  end.

(** ** Lemmas *)

Section ProviderLemmas.
Context {R A : Type}.

Lemma provider_run url (parse : jsval -> outcome (option Address.t)) (w : World R A) :
  (let* data := axios_get url in of_outcome (parse data)) w =
  (provider_outcome w.(w_net) url parse, log_app w [EvHttpGet url]).
Proof. unfold bind, axios_get, provider_outcome. by destruct (w_net w url). Qed.

(** One iteration of the loop of [fetchAddress]: the provider's
    success is handed on, a failure is logged and swallowed. *)
Lemma service_step {X} name url parse (svc : SM R A (option Address.t))
      (k : option Address.t -> SM R A X) (w : World R A) :
  svc = (let* data := axios_get url in of_outcome (parse data)) ->
  bind (catch svc (fun error => let* _ := console_error (fetch_error_message name) error in ret None)) k w
  = k (success (provider_outcome w.(w_net) url parse))
      (log_app w (provider_trace name url (provider_outcome w.(w_net) url parse))).
Proof.
  intros ->. unfold bind at 1, catch. rewrite provider_run.
  destruct (provider_outcome _ _ _) as [[a|]|e]; [done|done|].
  unfold console_error, log, bind, ret. by rewrite log_app_app.
Qed.

(** [fetchAddress] computes [resolve], never rejects, and makes
    exactly the calls of [fetch_trace]: the first provider's request,
    its error report if it threw, and the second provider only when
    the first gave no address. *)
Lemma fetchAddress_run cep (w : World R A) :
  fetchAddress cep w = (Ret (resolve w.(w_net) cep), log_app w (fetch_trace w.(w_net) cep)).
Proof.
  unfold fetchAddress, services, try_services.
  rewrite (service_step _ (viacep_url cep) (parse_viacep cep)) by reflexivity.
  unfold resolve, fetch_trace.
  destruct (success (provider_outcome (w_net w) (viacep_url cep) (parse_viacep cep))).
  { unfold ret. by rewrite app_nil_r. }
  rewrite (service_step _ (apicep_url cep) (parse_apicep cep)) by reflexivity.
  cbn [w_net log_app]. unfold ret. rewrite log_app_app.
  by destruct (success _).
Qed.
End ProviderLemmas.

Lemma viacep_apicep_urls cep : viacep_url cep <> apicep_url cep.
Proof. intros H. apply (f_equal (String.get 8)) in H. vm_compute in H. discriminate. Qed.

(** In the calls of [fetch_trace], ApiCEP is requested exactly when
    ViaCEP gave no address. *)
Lemma fetch_trace_apicep net cep :
  In (EvHttpGet (apicep_url cep)) (fetch_trace net cep) <->
  success (provider_outcome net (viacep_url cep) (parse_viacep cep)) = None.
Proof.
  unfold fetch_trace, provider_trace. pose proof (viacep_apicep_urls cep).
  destruct (success _); rewrite in_app_iff; simpl.
  - split; [|done]. intros [[H'|H']|[]]; [congruence|].
    destruct (provider_outcome _ _ _); simpl in H'; intuition discriminate.
  - split; [done|]. intros _. right. by left.
Qed.

Lemma field_or_empty_ret v k x :
  field_or_empty v k = Ret x -> x <> JUndefined /\ (truthy x = false -> x = JStr "").
Proof.
  unfold field_or_empty. destruct (get_prop v k) as [y|]; [|done]. intros [= <-].
  split; [apply js_or_empty_not_undefined|].
  unfold js_or. destruct (truthy y) eqn:Hy; [congruence|done].
Qed.

(** [d.k || ''] on a body, read directly off its properties: the
    provider's value when it is truthy, [''] otherwise (a missing
    property, and every property of a non-object, is [undefined]). *)
Definition body_field (d : jsval) (k : string) : jsval :=
  match d with
  | JObj ps => match prop_lookup k ps with Some x => if truthy x then x else JStr "" | None => JStr "" end
  | _ => JStr ""
  end.

(** The address each provider's body describes, under that provider's
    field names (spec section 6: distinct response shapes). *)
Definition viacep_address (cep : string) (d : jsval) : Address.t :=
  Address.mk cep (body_field d "logradouro") (body_field d "bairro")
    (body_field d "localidade") (body_field d "uf").

Definition apicep_address (cep : string) (d : jsval) : Address.t :=
  Address.mk cep (body_field d "address") (body_field d "district")
    (body_field d "city") (body_field d "state").

(** The normal form of a provider's address. *)
Definition normalised (cep : string) (a : Address.t) : Prop :=
  a.(Address.cep) = cep /\
  Forall (fun x => x <> JUndefined /\ (truthy x = false -> x = JStr ""))
    [a.(Address.street); a.(Address.neighborhood); a.(Address.city); a.(Address.state)].

Lemma build_normalised cep o1 o2 o3 o4 a :
  match o1, o2, o3, o4 with
  | Ret street, Ret neighborhood, Ret city, Ret state =>
      Ret (Some (Address.mk cep street neighborhood city state))
  | Throw e, _, _, _ | _, Throw e, _, _ | _, _, Throw e, _ | _, _, _, Throw e => Throw e
  end = Ret (Some a) ->
  (forall x, In (Ret x) [o1; o2; o3; o4] -> x <> JUndefined /\ (truthy x = false -> x = JStr "")) ->
  normalised cep a.
Proof.
  intros H Hx. destruct o1, o2, o3, o4; try discriminate. injection H as <-.
  split; [done|]. repeat constructor; apply Hx; simpl; tauto.
Qed.

(** A provider's address carries the
    postal code it was asked for, and each other field is the
    provider's value when truthy and the empty string otherwise; no
    field is ever [undefined]. *)
Lemma parse_normalised cep data a :
  (parse_viacep cep data = Ret (Some a) \/ parse_apicep cep data = Ret (Some a)) ->
  normalised cep a.
Proof.
  unfold parse_viacep, parse_apicep.
  intros [H|H]; destruct (get_prop data _) as [x|]; try discriminate;
    [destruct (truthy x)|destruct (negb _)]; try discriminate;
    (eapply build_normalised; [exact H|]);
    intros y Hy; simpl in Hy;
    repeat destruct Hy as [Hy|Hy]; try contradiction; exact (field_or_empty_ret _ _ _ Hy).
Qed.

Lemma field_or_empty_body d k x :
  String.eqb k "length" = false -> field_or_empty d k = Ret x -> x = body_field d k.
Proof.
  intros Hk. unfold field_or_empty, js_or.
  destruct d as [| | | | | |ps]; simpl; rewrite ?Hk; try discriminate; try (by intros [= <-]).
  destruct (prop_lookup k ps) as [y|]; simpl; intros [= <-]; [by destruct (truthy y)|done].
Qed.

(** The four fields of a provider's answer, each [data.k || '']. *)
Lemma build_fields cep d k1 k2 k3 k4 a :
  String.eqb k1 "length" = false -> String.eqb k2 "length" = false ->
  String.eqb k3 "length" = false -> String.eqb k4 "length" = false ->
  match field_or_empty d k1, field_or_empty d k2, field_or_empty d k3, field_or_empty d k4 with
  | Ret street, Ret neighborhood, Ret city, Ret state =>
      Ret (Some (Address.mk cep street neighborhood city state))
  | Throw e, _, _, _ | _, Throw e, _, _ | _, _, Throw e, _ | _, _, _, Throw e => Throw e
  end = Ret (Some a) ->
  a = Address.mk cep (body_field d k1) (body_field d k2) (body_field d k3) (body_field d k4).
Proof.
  intros H1 H2 H3 H4.
  destruct (field_or_empty d k1) eqn:E1, (field_or_empty d k2) eqn:E2,
    (field_or_empty d k3) eqn:E3, (field_or_empty d k4) eqn:E4; try discriminate.
  intros [= <-]. by rewrite (field_or_empty_body _ _ _ H1 E1), (field_or_empty_body _ _ _ H2 E2),
    (field_or_empty_body _ _ _ H3 E3), (field_or_empty_body _ _ _ H4 E4).
Qed.

Lemma parse_viacep_address cep d a : parse_viacep cep d = Ret (Some a) -> a = viacep_address cep d.
Proof.
  unfold parse_viacep. destruct (get_prop d "erro") as [x|]; [|done].
  destruct (truthy x); [done|]. by apply build_fields.
Qed.

Lemma parse_apicep_address cep d a : parse_apicep cep d = Ret (Some a) -> a = apicep_address cep d.
Proof.
  unfold parse_apicep. destruct (get_prop d "status") as [x|]; [|done].
  destruct (negb _); [done|]. by apply build_fields.
Qed.

(** The bodies the network delivers are JSON values (axios parses a
    JSON body, or hands over the raw text). *)
Definition net_json (net : string -> option jsval) : Prop :=
  forall url d, net url = Some d -> is_json d = true.

Lemma prop_lookup_json k ps x :
  forallb (fun kv => is_json kv.2) ps = true -> prop_lookup k ps = Some x -> is_json x = true.
Proof.
  induction ps as [|[k' v] ps IH]; simpl; [done|]. intros H.
  apply andb_prop in H as [Hv Hps].
  destruct (String.eqb_spec k k'); [by intros [= <-]|auto].
Qed.

Lemma field_or_empty_json v k x :
  is_json v = true -> field_or_empty v k = Ret x -> is_json x = true.
Proof.
  unfold field_or_empty, js_or. intros Hv.
  destruct v as [| | | | | |ps]; simpl; try discriminate;
    try (intros [= <-]; repeat case_match; done).
  apply andb_prop in Hv as [_ Hps].
  destruct (prop_lookup k ps) as [y|] eqn:Hl; simpl; intros [= <-];
    [destruct (truthy y); [by apply (prop_lookup_json k ps)|done]|done].
Qed.

Lemma parse_fields_json cep data a o1 o2 o3 o4 :
  is_json data = true ->
  (forall x, In (Ret x) [o1; o2; o3; o4] -> is_json x = true) ->
  match o1, o2, o3, o4 with
  | Ret street, Ret neighborhood, Ret city, Ret state =>
      Ret (Some (Address.mk cep street neighborhood city state))
  | Throw e, _, _, _ | _, Throw e, _, _ | _, _, Throw e, _ | _, _, _, Throw e => Throw e
  end = Ret (Some a) ->
  Address.fields_json a = true.
Proof.
  intros _ Hx H. destruct o1, o2, o3, o4; try discriminate. injection H as <-.
  unfold Address.fields_json; simpl. rewrite !Hx; simpl; tauto.
Qed.

(** A resolved address has the requested postal code and fields
    [JSON.stringify] prints faithfully. *)
Lemma resolve_wf net cep a :
  net_json net -> resolve net cep = Some a ->
  a.(Address.cep) = cep /\ Address.fields_json a = true.
Proof.
  intros Hnet. unfold resolve, success, provider_outcome.
  assert (Hp : forall url parse,
    (forall d, is_json d = true -> parse d = Ret (Some a) ->
       a.(Address.cep) = cep /\ Address.fields_json a = true) ->
    match match net url with Some d => parse d | None => Throw AxiosError end with
    | Ret (Some a') => Some a' | _ => None end = Some a ->
    a.(Address.cep) = cep /\ Address.fields_json a = true).
  { intros url parse Hparse. destruct (net url) as [d|] eqn:Hd; [|done].
    destruct (parse d) as [[a'|]|] eqn:Hpd; try discriminate. intros [= <-].
    apply (Hparse d); [by apply (Hnet url)|done]. }
  assert (Hv : forall d, is_json d = true -> parse_viacep cep d = Ret (Some a) ->
            a.(Address.cep) = cep /\ Address.fields_json a = true).
  { intros d Hd H. split; [by apply (parse_normalised cep d a); left|].
    unfold parse_viacep in H. destruct (get_prop d "erro"); [|done].
    destruct (truthy _); [done|]. eapply parse_fields_json; [exact Hd| |exact H].
    intros x Hx; simpl in Hx; repeat destruct Hx as [Hx|Hx]; try contradiction;
      exact (field_or_empty_json _ _ _ Hd Hx). }
  assert (Ha : forall d, is_json d = true -> parse_apicep cep d = Ret (Some a) ->
            a.(Address.cep) = cep /\ Address.fields_json a = true).
  { intros d Hd H. split; [by apply (parse_normalised cep d a); right|].
    unfold parse_apicep in H. destruct (get_prop d "status"); [|done].
    destruct (negb _); [done|]. eapply parse_fields_json; [exact Hd| |exact H].
    intros x Hx; simpl in Hx; repeat destruct Hx as [Hx|Hx]; try contradiction;
      exact (field_or_empty_json _ _ _ Hd Hx). }
  destruct (match net (viacep_url cep) with Some d => parse_viacep cep d | None => Throw AxiosError end)
    as [[a1|]|] eqn:E1.
  - intros H. apply (Hp (viacep_url cep) (parse_viacep cep) Hv). by rewrite E1.
  - apply (Hp _ _ Ha).
  - apply (Hp _ _ Ha).
Qed.

(** ** The resolver's contract *)

Section Contract.
Context {R A : Type}.

(** C6: Spec section 4.1: [fetchAddress] computes [resolve] — the first
    provider, in order, whose answer is a success wins — never rejects
    (a provider's error is logged and swallowed), and makes exactly
    the calls of [fetch_trace]. *)
Theorem fetchAddress_spec cep (w : World R A) :
  fetchAddress cep w = (Ret (resolve w.(w_net) cep), log_app w (fetch_trace w.(w_net) cep)).
Proof. apply fetchAddress_run. Qed.

(** The address [resolve] picks is the one the chosen provider's body
    describes. *)
Lemma resolve_address net cep a :
  resolve net cep = Some a ->
  (exists d, net (viacep_url cep) = Some d /\ a = viacep_address cep d) \/
  (exists d, net (apicep_url cep) = Some d /\ a = apicep_address cep d).
Proof.
  unfold resolve, success, provider_outcome.
  destruct (net (viacep_url cep)) as [d1|]; [destruct (parse_viacep cep d1) as [[a1|]|] eqn:E1|];
    try (intros [= <-]; left; exists d1; (split; [done|by apply parse_viacep_address]));
    destruct (net (apicep_url cep)) as [d2|]; try discriminate;
    destruct (parse_apicep cep d2) as [[a2|]|] eqn:E2; try discriminate;
    intros [= <-]; right; exists d2; (split; [done|by apply parse_apicep_address]).
Qed.

(** C11: Spec section 8: [fetchAddress] requests the second provider
    exactly when the first one gave no address (its request failed, it
    threw, or it answered "not found"); when the first succeeds, the
    second is never called.  The calls are those [fetchAddress] itself
    appends to the log. *)
Theorem fetchAddress_second_provider cep (w : World R A) :
  exists evs, (fetchAddress cep w).2 = log_app w evs /\
  (In (EvHttpGet (apicep_url cep)) evs <->
   success (provider_outcome w.(w_net) (viacep_url cep) (parse_viacep cep)) = None).
Proof.
  rewrite fetchAddress_run. eexists. split; [reflexivity|]. apply fetch_trace_apicep.
Qed.

(** C12: Spec section 4.1, normalisation: an address [fetchAddress]
    returns is the one a provider's body describes: the body ViaCEP
    answered, read under [logradouro], [bairro], [localidade] and [uf],
    or the one ApiCEP answered, read under [address], [district],
    [city] and [state]; each field is the body's value when truthy and
    [''] otherwise, and the postal code is the one asked for. *)
Theorem fetchAddress_fields cep (w w' : World R A) a :
  fetchAddress cep w = (Ret (Some a), w') ->
  (exists d, w.(w_net) (viacep_url cep) = Some d /\ a = viacep_address cep d) \/
  (exists d, w.(w_net) (apicep_url cep) = Some d /\ a = apicep_address cep d).
Proof.
  rewrite fetchAddress_run. intros [= Hr _]. exact (resolve_address _ _ _ Hr).
Qed.
End Contract.

(** A ViaCEP answer without [bairro] for the postal code of the test. *)
Definition sample_net (url : string) : option jsval :=
  if String.eqb url (viacep_url "01001000") then
    Some (JObj [("logradouro", JStr "Praça da Sé"); ("localidade", JStr "São Paulo"); ("uf", JStr "SP")])
  else None.

Definition sample_world : World unit unit := mkWorld tt tt ∅%stdpp 0%Z sample_net (fun _ => ""%string) 0 [].

Lemma fetchAddress_fields_witness :
  fetchAddress "01001000" sample_world =
    (Ret (Some (Address.mk "01001000" (JStr "Praça da Sé") (JStr "") (JStr "São Paulo") (JStr "SP"))),
     (fetchAddress "01001000" sample_world).2) /\
  ((exists d, sample_net (viacep_url "01001000") = Some d /\
     Address.mk "01001000" (JStr "Praça da Sé") (JStr "") (JStr "São Paulo") (JStr "SP")
       = viacep_address "01001000" d) \/
   (exists d, sample_net (apicep_url "01001000") = Some d /\
     Address.mk "01001000" (JStr "Praça da Sé") (JStr "") (JStr "São Paulo") (JStr "SP")
       = apicep_address "01001000" d)).
Proof.
  assert (H : fetchAddress "01001000" sample_world =
    (Ret (Some (Address.mk "01001000" (JStr "Praça da Sé") (JStr "") (JStr "São Paulo") (JStr "SP"))),
     (fetchAddress "01001000" sample_world).2)) by (vm_compute; reflexivity).
  split; [exact H|]. exact (fetchAddress_fields _ _ _ _ H).
Defined.
