(* ===== verification/MongoSchema.v ===== *)
(** The Mongoose schemas of src/src/infrastructure/database/models/Client.ts
    and how a document is built from the object the service saves.

    [new ClientModel(client)] casts every path of the schema
    ([cast_string]: strings stay, numbers and booleans are printed,
    objects and arrays are a cast error), applies the [uppercase]
    setter of [state], and [save()] runs the validators of every path:
    [required] (for a string: present and not empty), [maxlength] and
    [match].  Paths that are not in the schema ([cep], [id] of the
    client) are dropped by strict mode.  A failed validation is a
    [ValidationError]; its message lists the failing paths in Mongoose,
    which the model does not reproduce.

    Lengths are JavaScript lengths: UTF-16 code units, counted here as
    the code points of the UTF-8 bytes, which is exact for the basic
    plane.  [\s] in the email pattern is the ASCII white space; the
    [uppercase] setter changes ASCII letters only. *)

From stdpp Require Import base list option.
From Stdlib Require Import String Ascii ZArith.
From S2P Require Import Prelude JsValue Json Entities.

Local Open Scope string_scope.

(** ** Strings as JavaScript and the patterns see them *)

(** [s.length]: the bytes that are not UTF-8 continuation bytes. *)
Fixpoint js_length (s : string) : nat :=
  match s with
  | EmptyString => 0
  | String c s' =>
      let n := nat_of_ascii c in
      (if (128 <=? n)%nat && (n <? 192)%nat then 0 else 1) + js_length s'
  end.

Definition to_upper_char (c : ascii) : ascii :=
  let n := nat_of_ascii c in
  if (97 <=? n)%nat && (n <=? 122)%nat then ascii_of_nat (n - 32) else c.

(** [s.toUpperCase()] on ASCII letters. *)
Fixpoint to_upper (s : string) : string :=
  match s with
  | EmptyString => EmptyString
  | String c s' => String (to_upper_char c) (to_upper s')
  end.

Definition is_space (c : ascii) : bool :=
  let n := nat_of_ascii c in ((9 <=? n)%nat && (n <=? 13)%nat) || (n =? 32)%nat.

Fixpoint all_chars (p : ascii -> bool) (s : string) : bool :=
  match s with
  | EmptyString => true
  | String c s' => p c && all_chars p s'
  end.

(** After the first character of [\S+\.\S+]: a dot somewhere followed by
    at least one character. *)
Fixpoint dot_tail (s : string) : bool :=
  match s with
  | EmptyString => false
  | String c s' => (Ascii.eqb c "."%char && negb (String.eqb s' "")) || dot_tail s'
  end.

(** [\S+\.\S+] on a string without white space. *)
Definition dot_ok (s : string) : bool :=
  match s with EmptyString => false | String _ s' => dot_tail s' end.

(** After the first character of [\S+@\S+\.\S+]. *)
Fixpoint at_tail (s : string) : bool :=
  match s with
  | EmptyString => false
  | String c s' => (Ascii.eqb c "@"%char && dot_ok s') || at_tail s'
  end.

(** [/^\S+@\S+\.\S+$/.test(s)] *)
Definition email_ok (s : string) : bool :=
  all_chars (fun c => negb (is_space c)) s &&
  match s with EmptyString => false | String _ s' => at_tail s' end.

(** [/^\d{10,20}$/.test(s)] *)
Definition phone_ok (s : string) : bool :=
  all_chars is_digit s && (10 <=? String.length s)%nat && (String.length s <=? 20)%nat.

(** [/^\d{8}$/.test(s)] *)
Definition cep_ok (s : string) : bool := all_chars is_digit s && (String.length s =? 8)%nat.

(** ** Casting *)

Definition CastError (path : string) : exn :=
  mkExn "ValidationError" ("Client validation failed: " ++ path ++ ": Cast failed").
Definition ValidationFailed : exn := mkExn "ValidationError" "Client validation failed".

(** SchemaString's cast: [undefined] and [null] leave the path unset. *)
Definition cast_string (path : string) (v : jsval) : outcome (option string) :=
  match v with
  | JUndefined | JNull => Ret None
  | JStr s => Ret (Some s)
  | JNum n => Ret (Some (number_to_string n))
  | JBool b => Ret (Some (if b then "true" else "false"))
  | JArr _ | JObj _ => Throw (CastError path)
  end.

(** The paths of [AddressSchema] after casting. *)
Record address_paths := mkAddressPaths {
  p_cep : option string; p_street : option string; p_neighborhood : option string;
  p_city : option string; p_state : option string
}.

(** The single nested [address] path: an object is cast path by path,
    [state] through its [uppercase] setter. *)
Definition cast_address (v : jsval) : outcome (option address_paths) :=
  match v with
  | JUndefined | JNull => Ret None
  | JObj ps =>
      let get k := default JUndefined (prop_lookup k ps) in
      o_bind (cast_string "address.cep" (get "cep")) (fun cep =>
      o_bind (cast_string "address.street" (get "street")) (fun street =>
      o_bind (cast_string "address.neighborhood" (get "neighborhood")) (fun neighborhood =>
      o_bind (cast_string "address.city" (get "city")) (fun city =>
      o_bind (cast_string "address.state" (get "state")) (fun state =>
      Ret (Some (mkAddressPaths cep street neighborhood city (option_map to_upper state))))))))
  | _ => Throw (CastError "address")
  end.

(** ** Validators *)

(** [required], [maxlength] and [match] of one string path. *)
Definition check_path (maxlen : nat) (pattern : string -> bool) (v : option string) : bool :=
  match v with
  | None => false
  | Some s => negb (String.eqb s "") && (js_length s <=? maxlen)%nat && pattern s
  end.

Definition any_string (_ : string) : bool := true.

Definition address_valid (a : address_paths) : bool :=
  check_path 8 cep_ok a.(p_cep) &&
  check_path 255 any_string a.(p_street) && check_path 255 any_string a.(p_neighborhood) &&
  check_path 255 any_string a.(p_city) && check_path 2 any_string a.(p_state).

Definition client_paths_valid (c : Client.t) : bool :=
  check_path 255 any_string c.(Client.name) && check_path 255 email_ok c.(Client.email) &&
  check_path 20 phone_ok c.(Client.phone).

(** ** Documents *)

Record address_doc := mkAddressDoc {
  a_oid : string; a_cep : string; a_street : string; a_neighborhood : string;
  a_city : string; a_state : string
}.

Record doc := mkDoc {
  oid : string; d_name : string; d_email : string; d_phone : string; d_address : address_doc
}.

(** [new ClientModel(client)] followed by the validation of [save()]:
    the document with its [_id] and the [_id] of its address, or the
    validation error. *)
Definition build_doc (c : Client.t) (id aid : string) : outcome doc :=
  o_bind (cast_address (default JUndefined c.(Client.address))) (fun addr =>
  match addr, c.(Client.name), c.(Client.email), c.(Client.phone) with
  | Some a, Some name, Some email, Some phone =>
      match a.(p_cep), a.(p_street), a.(p_neighborhood), a.(p_city), a.(p_state) with
      | Some cep, Some street, Some neighborhood, Some city, Some state =>
          if address_valid a && client_paths_valid c
          then Ret (mkDoc id name email phone (mkAddressDoc aid cep street neighborhood city state))
          else Throw ValidationFailed
      | _, _, _, _, _ => Throw ValidationFailed
      end
  | _, _, _, _ => Throw ValidationFailed
  end).

(** [doc.toObject()] seen as a [Client]: the name, email, phone and
    address; [_id] and [__v] have no place in the interface, and the
    document has neither [id] nor [cep]. *)
Definition address_object (a : address_doc) : jsval :=
  JObj [("cep", JStr a.(a_cep)); ("street", JStr a.(a_street));
        ("neighborhood", JStr a.(a_neighborhood)); ("city", JStr a.(a_city));
        ("state", JStr a.(a_state)); ("_id", JStr a.(a_oid))].

Definition to_object (d : doc) : Client.t :=
  Client.mk None (Some d.(d_name)) (Some d.(d_email)) (Some d.(d_phone)) None
    (Some (address_object d.(d_address))).

(** ** Lemmas *)

Lemma build_doc_fields c id aid d :
  build_doc c id aid = Ret d ->
  c.(Client.name) = Some d.(d_name) /\ c.(Client.email) = Some d.(d_email) /\
  c.(Client.phone) = Some d.(d_phone).
Proof.
  unfold build_doc. destruct (cast_address _) as [[a|]|]; simpl; try discriminate.
  destruct (Client.name c), (Client.email c), (Client.phone c); try discriminate.
  destruct (p_cep a), (p_street a), (p_neighborhood a), (p_city a), (p_state a); try discriminate.
  destruct (_ && _); [|discriminate]. by intros [= <-].
Qed.

Lemma build_doc_valid c id aid d :
  build_doc c id aid = Ret d ->
  email_ok d.(d_email) = true /\ phone_ok d.(d_phone) = true /\ cep_ok d.(d_address).(a_cep) = true /\
  d.(d_address).(a_street) <> "" /\ js_length d.(d_address).(a_state) <= 2.
Proof.
  unfold build_doc. destruct (cast_address _) as [[a|]|]; simpl; try discriminate.
  destruct (Client.name c) eqn:En, (Client.email c) as [e|] eqn:Ee, (Client.phone c) as [p|] eqn:Ep;
    try discriminate.
  destruct (p_cep a) eqn:E1, (p_street a) eqn:E2, (p_neighborhood a), (p_city a), (p_state a) eqn:E5;
    try discriminate.
  destruct (address_valid a && client_paths_valid _) eqn:Hv; [|discriminate]. intros [= <-]. simpl.
  unfold address_valid, client_paths_valid, check_path in Hv.
  rewrite En, Ee, Ep, E1, E2, E5 in Hv.
  repeat match goal with H : _ && _ = true |- _ => apply andb_prop in H as [? ?] end.
  repeat match goal with H : negb (String.eqb _ _) = true |- _ =>
    apply negb_true_iff, String.eqb_neq in H end.
  repeat match goal with H : (_ <=? _)%nat = true |- _ => apply Nat.leb_le in H end.
  repeat split; assumption.
Qed.

Lemma o_bind_throw {A B} (o : outcome A) (k : A -> outcome B) e :
  o_bind o k = Throw e -> o = Throw e \/ exists a, o = Ret a /\ k a = Throw e.
Proof. destruct o; simpl; [right; eauto|intros [= ->]; auto]. Qed.

Lemma cast_string_throw p v e : cast_string p v = Throw e -> e = CastError p.
Proof. destruct v; simpl; congruence. Qed.

Lemma cast_address_throw v e : cast_address v = Throw e -> exists p, e = CastError p.
Proof.
  destruct v as [| | | | | |ps]; simpl; try (by intros [=]); try (intros [= <-]; by eexists).
  repeat (intros H; apply o_bind_throw in H as [H|(? & _ & H)];
          [apply cast_string_throw in H; eauto|revert H]).
  by intros [=].
Qed.

(** [new ClientModel(client).save()] fails with a cast error or a
    validation error, nothing else. *)
Lemma build_doc_throw c id aid e :
  build_doc c id aid = Throw e -> e = ValidationFailed \/ exists p, e = CastError p.
Proof.
  unfold build_doc. intros H. apply o_bind_throw in H as [H|([a|] & _ & H)].
  - right. by apply cast_address_throw in H.
  - left. revert H. repeat case_match; congruence.
  - left. congruence.
Qed.

(** The cast of an address object built by the service: each path
    holds what [cast_string] makes of the field. *)
Lemma cast_address_to_js a p :
  cast_address (Address.to_js a) = Ret (Some p) ->
  p.(p_cep) = Some a.(Address.cep) /\
  cast_string "address.street" a.(Address.street) = Ret p.(p_street) /\
  cast_string "address.neighborhood" a.(Address.neighborhood) = Ret p.(p_neighborhood) /\
  cast_string "address.city" a.(Address.city) = Ret p.(p_city) /\
  exists st, cast_string "address.state" a.(Address.state) = Ret st /\
             p.(p_state) = option_map to_upper st.
Proof.
  unfold cast_address, Address.to_js. simpl.
  destruct (cast_string "address.street" _) as [s1|]; simpl; [|done].
  destruct (cast_string "address.neighborhood" _) as [s2|]; simpl; [|done].
  destruct (cast_string "address.city" _) as [s3|]; simpl; [|done].
  destruct (cast_string "address.state" _) as [s4|]; simpl; [|done].
  intros [= <-]. simpl. eauto 10.
Qed.

(** A path that is the empty string fails [required]. *)
Lemma check_path_empty n pat : check_path n pat (Some "") = false.
Proof. reflexivity. Qed.

(** An email the schema's pattern rejects is never saved. *)
Lemma build_doc_bad_email c id aid email :
  c.(Client.email) = Some email -> email_ok email = false -> is_ret (build_doc c id aid) = false.
Proof.
  intros He Hbad.
  assert (Hc : client_paths_valid c = false).
  { unfold client_paths_valid, check_path. rewrite He, Hbad, andb_false_r.
    by rewrite andb_false_r, andb_false_l. }
  unfold build_doc. destruct (cast_address _) as [[a|]|]; simpl; [|done|done].
  rewrite He. destruct (Client.name c), (Client.phone c); [|done..].
  destruct (p_cep a), (p_street a), (p_neighborhood a), (p_city a), (p_state a); try done.
  by rewrite Hc, andb_false_r.
Qed.

(** An address with an empty field is never saved: [required] rejects
    the empty string. *)
Lemma build_doc_empty_field c oid' aid a :
  c.(Client.address) = Some (Address.to_js a) ->
  In (JStr "") [a.(Address.street); a.(Address.neighborhood); a.(Address.city); a.(Address.state)] ->
  is_ret (build_doc c oid' aid) = false.
Proof.
  intros Ha Hin. unfold build_doc. rewrite Ha. cbn [default from_option id].
  destruct (cast_address _) as [[p|]|] eqn:Hp; simpl; [|done|done].
  apply cast_address_to_js in Hp as (_ & H1 & H2 & H3 & st & H4 & H5).
  assert (Hv : address_valid p = false).
  { unfold address_valid.
    destruct Hin as [E|[E|[E|[E|[]]]]]; rewrite E in *; simpl in *;
      repeat match goal with
      | H : Ret (Some "") = Ret st |- _ => injection H as <-
      | H : Ret (Some "") = Ret ?x |- _ => injection H as H; rewrite <- H
      end;
      rewrite ?H5; simpl; by rewrite ?andb_false_r. }
  destruct (Client.name c), (Client.email c), (Client.phone c); try done.
  destruct (p_cep p), (p_street p), (p_neighborhood p), (p_city p), (p_state p); try done.
  by rewrite Hv.
Qed.
