(* ===== verification/MongoClientRepository.v ===== *)
(** [ClientRepositoryImpl] of
    src/src/interfaces/repositories/ClientRepositoryImpl.ts over a model
    of the MongoDB collection behind [ClientModel].

    The collection is the list of stored documents in natural order,
    the counter Mongoose draws fresh ObjectIds from, and one flag of the
    Mongoose version: whether documents have the [id] setter that
    assigns [_id] from an [id] given to the constructor (added in later
    Mongoose releases; without it the [id] is dropped).  The unique
    indexes on [email] and [phone], and the one on [_id], make an insert
    that repeats a value fail with MongoDB's E11000 error.

    [findByCep] queries a path that is not in the schema: with
    [strictQuery] off (the default since Mongoose 7) no document has
    it and the answer is [null].  [findByName] builds
    [new RegExp(name, 'i')]; the model matches [name] as a literal,
    case-insensitive substring, which is what the regular expression
    does when [name] has no metacharacter. *)

From stdpp Require Import base list option.
From Stdlib Require Import String Ascii ZArith NArith Lia.
From S2P Require Import Prelude JsValue Json Entities Repositories MongoSchema.

Local Open Scope string_scope.

Module ClientRepositoryImpl.
Record collection := mkCollection {
  docs : list doc;
  next_oid : nat;
  id_setter : bool
}.

Fixpoint zeros (k : nat) : string :=
  match k with 0 => EmptyString | S k' => String "0" (zeros k') end.

(** A fresh ObjectId, as 24 hexadecimal digits. *)
Definition object_id (n : nat) : string :=
  let d := digits_of_N (N.of_nat n) in zeros (24 - String.length d) ++ d.

Definition is_hex (c : ascii) : bool :=
  let n := nat_of_ascii c in
  is_digit c || ((97 <=? n)%nat && (n <=? 102)%nat) || ((65 <=? n)%nat && (n <=? 70)%nat).

(** A string Mongoose casts to an ObjectId. *)
Definition valid_object_id (s : string) : bool :=
  (String.length s =? 24)%nat && all_chars is_hex s.

Definition ObjectIdCastError (v : string) : exn :=
  mkExn "CastError" ("Cast to ObjectId failed for value " ++ v ++ " at path _id for model Client").
Definition DuplicateKey : exn := mkExn "MongoServerError" "E11000 duplicate key error".
Definition NegativeSkip : exn := mkExn "MongoServerError" "BSON field 'skip' value must be >= 0".

(** The [_id] of a new document. *)
Definition new_id (col : collection) (c : Client.t) : outcome string :=
  match col.(id_setter), c.(Client.id) with
  | true, Some u => if valid_object_id u then Ret u else Throw (CastError "_id")
  | _, _ => Ret (object_id col.(next_oid))
  end.

(** A stored document that an insert of [d] would duplicate in a
    unique index. *)
Definition dup_key (d d' : doc) : bool :=
  String.eqb d'.(oid) d.(oid) || String.eqb d'.(d_email) d.(d_email) ||
  String.eqb d'.(d_phone) d.(d_phone).

(** [new ClientModel(client).save()] then [toObject()]. *)
Definition save (client : Client.t) : M collection Client.t :=
  fun col =>
    match o_bind (new_id col client)
            (fun id => build_doc client id (object_id (S col.(next_oid)))) with
    | Throw e => (Throw e, col)
    | Ret d =>
        if existsb (dup_key d) col.(docs) then (Throw DuplicateKey, col)
        else (Ret (to_object d),
              mkCollection (col.(docs) ++ [d]) (S (S col.(next_oid))) col.(id_setter))
    end.

(** [ClientModel.findOne({ cep })] *)
Definition findByCep (cep : string) : M collection (option Client.t) :=
  fun col => (Ret None, col).

(** [.skip((page - 1) * limit).limit(limit)] *)
Definition page_of (page limit : Z) (l : list doc) : outcome (list doc) :=
  let skip := ((page - 1) * limit)%Z in
  if (skip <? 0)%Z then Throw NegativeSkip
  else
    let rest := drop (Z.to_nat skip) l in
    Ret (if (limit =? 0)%Z then rest else take (Z.to_nat (Z.abs limit)) rest).

Definition findAll (page limit : Z) : M collection (list Client.t) :=
  fun col => (o_bind (page_of page limit col.(docs)) (fun ds => Ret (map to_object ds)), col).

(** [ClientModel.findById(id)] *)
Definition findById (id : string) : M collection (option Client.t) :=
  fun col =>
    if valid_object_id id
    then (Ret (option_map to_object (find (fun d => String.eqb d.(oid) id) col.(docs))), col)
    else (Throw (ObjectIdCastError id), col).

Fixpoint remove_first (id : string) (l : list doc) : list doc :=
  match l with
  | [] => []
  | d :: l' => if String.eqb d.(oid) id then l' else d :: remove_first id l'
  end.

(** [ClientModel.findByIdAndDelete(id)] *)
Definition deleteById (id : string) : M collection unit :=
  fun col =>
    if valid_object_id id
    then (Ret tt, mkCollection (remove_first id col.(docs)) col.(next_oid) col.(id_setter))
    else (Throw (ObjectIdCastError id), col).

Fixpoint is_prefix (p s : string) : bool :=
  match p, s with
  | EmptyString, _ => true
  | String a p', String b s' => Ascii.eqb a b && is_prefix p' s'
  | _, _ => false
  end.

Fixpoint contains (p s : string) : bool :=
  is_prefix p s || match s with EmptyString => false | String _ s' => contains p s' end.

(** [ClientModel.find({ name: new RegExp(name, 'i') })] *)
Definition findByName (name : string) (page limit : Z) : M collection (list Client.t) :=
  fun col =>
    let hits := filter (fun d => contains (to_upper name) (to_upper d.(d_name))) col.(docs) in
    (o_bind (page_of page limit hits) (fun ds => Ret (map to_object ds)), col).

(** [ClientModel.findOne({ $or: [{ email }, { phone }] })] *)
Definition findByEmailOrPhone (email phone : string) : M collection (option Client.t) :=
  fun col =>
    (Ret (option_map to_object
            (find (fun d => String.eqb d.(d_email) email || String.eqb d.(d_phone) phone) col.(docs))),
     col).

#[export] Instance ops : ClientRepository.Ops collection :=
  {| ClientRepository.save := save;
     ClientRepository.findByCep := findByCep;
     ClientRepository.findAll := findAll;
     ClientRepository.findById := findById;
     ClientRepository.deleteById := deleteById;
     ClientRepository.findByName := findByName;
     ClientRepository.findByEmailOrPhone := findByEmailOrPhone |}.

Lemma clash_to_object e p d :
  ClientRepository.clashes e p (to_object d) <->
  (String.eqb d.(d_email) e || String.eqb d.(d_phone) p) = true.
Proof.
  unfold ClientRepository.clashes, to_object. simpl. rewrite orb_true_iff, !String.eqb_eq.
  split; intros [H|H]; [left|right|left|right]; congruence.
Qed.

Lemma findByEmailOrPhone_law e p col : exists o,
  findByEmailOrPhone e p col = (Ret o, col) /\
  (o = None <-> Forall (fun c => ~ ClientRepository.clashes e p c) (map to_object col.(docs))) /\
  (forall c, o = Some c -> ClientRepository.clashes e p c).
Proof.
  eexists. split; [reflexivity|]. split.
  - rewrite Forall_map.
    destruct (find _ _) as [d|] eqn:Hf; simpl.
    + split; [done|]. intros Hall. apply find_some in Hf as [Hin Hd].
      rewrite List.Forall_forall in Hall. exfalso. apply (Hall d Hin). by apply clash_to_object.
    + split; [|done]. intros _. apply find_none_iff in Hf.
      revert Hf. apply List.Forall_impl. intros d Hd Hc. apply clash_to_object in Hc. congruence.
  - intros c Hc. destruct (find _ _) as [d|] eqn:Hf; [|done].
    injection Hc as <-. apply find_some in Hf as [_ Hd]. by apply clash_to_object.
Qed.

Lemma save_law c col :
  match save c col with
  | (Ret c', col') =>
      map to_object col'.(docs) = (map to_object col.(docs) ++ [c'])%list /\
      c'.(Client.name) = c.(Client.name) /\ c'.(Client.email) = c.(Client.email) /\
      c'.(Client.phone) = c.(Client.phone) /\
      (is_Some c.(Client.address) -> is_Some c'.(Client.address))
  | (Throw _, col') => col' = col
  end.
Proof.
  unfold save. destruct (o_bind _ _) as [d|e] eqn:Hb; [|done].
  destruct (existsb _ _); [done|]. simpl. rewrite map_app. split; [done|].
  destruct (new_id col c); [|done]. simpl in Hb.
  destruct (build_doc_fields _ _ _ _ Hb) as (-> & -> & ->). by repeat split.
Qed.

(** A client the schema rejects is not inserted: [save] rejects with a
    [ValidationError] and the collection is unchanged. *)
Lemma save_rejected c col :
  (forall i aid, is_ret (build_doc c i aid) = false) ->
  exists e, save c col = (Throw e, col) /\ (e = ValidationFailed \/ exists p, e = CastError p).
Proof.
  intros Hb. unfold save.
  destruct (new_id col c) as [i|e] eqn:Hi; simpl.
  - specialize (Hb i (object_id (S (next_oid col)))).
    destruct (build_doc _ _ _) as [d|e] eqn:Hd; [done|].
    exists e. split; [done|]. by apply build_doc_throw in Hd.
  - exists e. split; [done|]. right. unfold new_id in Hi.
    destruct (id_setter col), (Client.id c); try congruence.
    destruct (valid_object_id _); [congruence|]. injection Hi as <-. eauto.
Qed.

#[export] Instance laws : ClientRepository.Laws collection.
Proof.
  refine {| ClientRepository.contents := fun col => map to_object col.(docs) |}.
  - apply findByEmailOrPhone_law.
  - apply save_law.
Defined.
End ClientRepositoryImpl.
