(* ===== verification/Service.v ===== *)
(** [ClientService] of src/src/application/services/ClientService.ts:
    [getCachedAddress], [cacheAddress], [registerClient] and the query
    operations, verified against the repository laws.

    [registerClient] is modelled statement by statement in the monad
    of [World]: the validation of line 16, the duplicate check of lines
    21-24, the cache lookup of line 26, the resolution and write-through
    of lines 27-35 (cache first, then the address repository), the
    uuid of line 37 and the save of line 39.  An exception leaves the
    world as it was at the point of the throw: writes already made are
    kept (spec section 4.3).

    The theorems give the outcome and the exact calls of every branch
    ([registerClient_invalid], [registerClient_duplicate],
    [registerClient_cached], [registerClient_resolved],
    [registerClient_not_found]), the cache round trip and expiry, and
    the invariants the service keeps over the stores. *)

From stdpp Require Import base list option gmap strings.
From Stdlib Require Import String ZArith Lia.
From S2P Require Import Prelude JsValue Json Entities Redis Repositories World Providers.
From S2P Require Import MongoSchema MongoClientRepository.
Import ClientRepositoryImpl AddressRepositoryImpl.

Definition invalid_data_message : string := "Dados do cliente inválidos"%string.
Definition duplicate_message : string := "Cliente com o mesmo email ou telefone já existe"%string.
Definition cep_not_found_message : string := "CEP não encontrado"%string.

(** Line 90: [cachedAddress ? JSON.parse(cachedAddress) : null]. *)
Definition cached_result (cachedAddress : option string) : outcome jsval :=
  match cachedAddress with
  | Some s => if truthy (JStr s) then JSON_parse s else Ret JNull
  | None => Ret JNull
  end.

(** [EX: 60 * 60 * 24]: 24 hours. *)
Definition cache_ttl : Z := 60 * 60 * 24.

(** Line 16: [client.name && client.email && client.cep && client.phone]. *)
Definition valid_client (c : Client.t) : bool :=
  truthy (Client.field c.(Client.name)) && truthy (Client.field c.(Client.email)) &&
  truthy (Client.field c.(Client.cep)) && truthy (Client.field c.(Client.phone)).

Section ClientService.
Context {R A : Type} `{!ClientRepository.Ops R} `{!AddressRepository.Ops A}.

(** [private async getCachedAddress(cep)] *)
Definition getCachedAddress (cep : string) : SM R A jsval :=
  let* cachedAddress := redis_get cep in
  of_outcome (cached_result cachedAddress).

(** [private async cacheAddress(cep, address)] *)
Definition cacheAddress (cep : string) (address : Address.t) : SM R A unit :=
  redis_set cep (print (Address.to_js address)) cache_ttl.

(** [await this.addressRepository.save(address)] *)
Definition saveAddress (address : Address.t) : SM R A unit :=
  let* _ := log (EvAddressSave address) in on_addresses (AddressRepository.save address).

(** Lines 26-35: the cached address, or the resolved one written
    through to the cache and to the address repository. *)
Definition resolveAddress (cep : string) : SM R A jsval :=
  let* cached := getCachedAddress cep in
  if truthy cached then ret cached
  else
    let* fetched := fetchAddress cep in
    match fetched with
    | None => throw (Error cep_not_found_message)
    | Some a =>
        let* _ := cacheAddress cep a in
        let* _ := saveAddress a in
        ret (Address.to_js a)
    end.

(** [public async registerClient(client)].  The [match] after the
    validation only names the fields the validation has checked; its
    last branch is unreachable. *)
Definition registerClient (client : Client.t) : SM R A Client.t :=
  if negb (valid_client client) then throw (Error invalid_data_message)
  else
    match client.(Client.email), client.(Client.phone), client.(Client.cep) with
    | Some email, Some phone, Some cep =>
        let* existingClient :=
          on_clients (EvFindByEmailOrPhone email phone)
            (ClientRepository.findByEmailOrPhone email phone) in
        match existingClient with
        | Some _ => throw (Error duplicate_message)
        | None =>
            let* address := resolveAddress cep in
            let* id := uuidv4 in
            let c := Client.assign client id address in
            on_clients (EvClientSave c) (ClientRepository.save c)
        end
    | _, _, _ => throw (Error invalid_data_message)
    end.

(** [listClients], [getClientById], [deleteClientById],
    [searchClientsByName]: pass-through to the repository. *)
Definition listClients (page limit : Z) : SM R A (list Client.t) :=
  on_clients (EvFindAll page limit) (ClientRepository.findAll page limit).
Definition getClientById (id : string) : SM R A (option Client.t) :=
  on_clients (EvFindById id) (ClientRepository.findById id).
Definition deleteClientById (id : string) : SM R A unit :=
  on_clients (EvDeleteById id) (ClientRepository.deleteById id).
Definition searchClientsByName (name : string) (page limit : Z) : SM R A (list Client.t) :=
  on_clients (EvFindByName name page limit) (ClientRepository.findByName name page limit).
End ClientService.

(** ** Running the steps *)

Section Steps.
Context {R A : Type} `{!ClientRepository.Ops R} `{!ClientRepository.Laws R}
        `{!AddressRepository.Ops A} `{!AddressRepository.Laws A}.

Lemma set_clients_log_app (w : World R A) evs :
  set_clients (w_clients w) (log_app w evs) = log_app w evs.
Proof. by destruct w. Qed.

Lemma findByEmailOrPhone_run e p (w : World R A) : exists o,
  on_clients (EvFindByEmailOrPhone e p) (ClientRepository.findByEmailOrPhone e p) w
    = (Ret o, log_app w [EvFindByEmailOrPhone e p]) /\
  (o = None <-> Forall (fun c => ~ ClientRepository.clashes e p c)
                        (ClientRepository.contents w.(w_clients))).
Proof.
  destruct (ClientRepository.findByEmailOrPhone_spec e p (w_clients w)) as (o & Hrun & Hnone & _).
  exists o. split; [|done]. unfold on_clients, log, bind, focus. cbn [w_clients log_app].
  fold (w_clients w). rewrite Hrun. by rewrite set_clients_log_app.
Qed.

Lemma getCachedAddress_run cep (w : World R A) :
  getCachedAddress cep w =
  (cached_result (Redis.get cep w.(w_now) w.(w_redis)), log_app w [EvRedisGet cep]).
Proof. reflexivity. Qed.

Definition cache_entry (a : Address.t) (now : Z) : Redis.entry :=
  Redis.mkEntry (print (Address.to_js a)) (Some (now + cache_ttl)%Z).

Lemma cacheAddress_run cep a (w : World R A) :
  cacheAddress cep a w =
  (Ret tt, set_redis (<[cep := cache_entry a w.(w_now)]> w.(w_redis))
             (log_app w [EvRedisSet cep (print (Address.to_js a)) cache_ttl])).
Proof.
  unfold cacheAddress, redis_set. rewrite Redis.set_ex_pos; [done|].
  unfold cache_ttl. lia.
Qed.

Lemma saveAddress_run a (w : World R A) : exists s',
  saveAddress a w = (Ret tt, set_addresses s' (log_app w [EvAddressSave a])) /\
  AddressRepository.contents s' = AddressRepository.contents w.(w_addresses) ++ [a].
Proof.
  destruct (AddressRepository.save_spec a (w_addresses w)) as (s' & Hrun & Hc).
  exists s'. split; [|done]. unfold saveAddress, on_addresses, log, bind, focus.
  cbn [w_addresses log_app]. fold (w_addresses w). by rewrite Hrun.
Qed.

(** The world after a successful write-through. *)
Definition written (w : World R A) (cep : string) (a : Address.t) (s' : A) : World R A :=
  set_addresses s'
    (log_app (set_redis (<[cep := cache_entry a w.(w_now)]> w.(w_redis)) w)
       ([EvRedisGet cep] ++ fetch_trace w.(w_net) cep ++
        [EvRedisSet cep (print (Address.to_js a)) cache_ttl; EvAddressSave a])).

Lemma resolveAddress_cached cep (w : World R A) v :
  cached_result (Redis.get cep w.(w_now) w.(w_redis)) = Ret v -> truthy v = true ->
  resolveAddress cep w = (Ret v, log_app w [EvRedisGet cep]).
Proof.
  intros Hc Hv. unfold resolveAddress. rewrite (bind_run_ret _ _ _ v (log_app w [EvRedisGet cep])).
  - by rewrite Hv.
  - by rewrite getCachedAddress_run, Hc.
Qed.

Lemma resolveAddress_miss cep (w : World R A) v :
  cached_result (Redis.get cep w.(w_now) w.(w_redis)) = Ret v -> truthy v = false ->
  match resolve w.(w_net) cep with
  | Some a => exists s',
      resolveAddress cep w = (Ret (Address.to_js a), written w cep a s') /\
      AddressRepository.contents s' = AddressRepository.contents w.(w_addresses) ++ [a]
  | None =>
      resolveAddress cep w =
      (Throw (Error cep_not_found_message), log_app w ([EvRedisGet cep] ++ fetch_trace w.(w_net) cep))
  end.
Proof.
  intros Hc Hv. unfold resolveAddress.
  rewrite (bind_run_ret _ _ _ v (log_app w [EvRedisGet cep])) by (by rewrite getCachedAddress_run, Hc).
  rewrite Hv. rewrite (bind_run_ret _ _ _ _ _ (fetchAddress_run cep _)).
  cbn [w_net log_app]. fold (w_net w). rewrite log_app_app.
  destruct (resolve (w_net w) cep) as [a|]; [|done].
  destruct (saveAddress_run a (set_redis (<[cep := cache_entry a (w_now w)]> (w_redis w))
              (log_app w (([EvRedisGet cep] ++ fetch_trace (w_net w) cep) ++
                          [EvRedisSet cep (print (Address.to_js a)) cache_ttl]))))
    as (s' & Hs & Hcont).
  exists s'. split; [|done].
  rewrite (bind_run_ret _ _ _ _ _ (cacheAddress_run _ _ _)).
  cbn [w_now w_redis log_app]. rewrite log_app_app.
  rewrite (bind_run_ret _ _ _ _ _ Hs). unfold written, ret.
  rewrite set_redis_log_app, log_app_app. by rewrite <- !app_assoc.
Qed.
End Steps.

(** ** The branches of [registerClient] *)

(** A required field that is missing or empty: what spec section 4.3
    calls a [ValidationError]. *)
Definition missing_field (c : Client.t) : Prop :=
  Exists (fun f => f = None \/ f = Some ""%string)
    [c.(Client.name); c.(Client.email); c.(Client.cep); c.(Client.phone)].

Lemma field_falsy o : truthy (Client.field o) = false <-> o = None \/ o = Some ""%string.
Proof.
  destruct o as [s|]; simpl; [|split; auto].
  destruct (String.eqb_spec s ""); subst; simpl; [split; auto|].
  split; [done|]. intros [H|H]; congruence.
Qed.

Lemma valid_client_missing c : valid_client c = false <-> missing_field c.
Proof.
  unfold valid_client, missing_field. rewrite !Exists_cons, Exists_nil, <- !field_falsy.
  destruct (truthy (Client.field (Client.name c))), (truthy (Client.field (Client.email c))),
    (truthy (Client.field (Client.cep c))), (truthy (Client.field (Client.phone c)));
    simpl; intuition congruence.
Qed.

Section Register.
Context {R A : Type} `{!ClientRepository.Ops R} `{!ClientRepository.Laws R}
        `{!AddressRepository.Ops A} `{!AddressRepository.Laws A}.

(** The last two steps: the uuid, then the save of the composed client. *)
Lemma assign_and_save_run (c : Client.t) (v : jsval) (w : World R A) :
  let id := w.(w_uuid) w.(w_next) in
  let c' := Client.assign c id v in
  (let* id := uuidv4 in
   on_clients (EvClientSave (Client.assign c id v)) (ClientRepository.save (Client.assign c id v))) w
  = ((ClientRepository.save c' w.(w_clients)).1,
     set_clients (ClientRepository.save c' w.(w_clients)).2
       (log_app (set_next (S w.(w_next)) w) [EvUuid id; EvClientSave c'])).
Proof.
  cbv zeta. unfold bind at 1, uuidv4, on_clients, log, bind, focus. cbn [w_clients log_app set_next].
  fold (w_clients w). destruct (ClientRepository.save _ _). by rewrite log_app_app.
Qed.

Lemma registerClient_fields c email phone cep :
  valid_client c = true ->
  c.(Client.email) = Some email -> c.(Client.phone) = Some phone -> c.(Client.cep) = Some cep ->
  forall w : World R A, registerClient c w =
  (let* existingClient := on_clients (EvFindByEmailOrPhone email phone)
                            (ClientRepository.findByEmailOrPhone email phone) in
   match existingClient with
   | Some _ => throw (Error duplicate_message)
   | None =>
       let* address := resolveAddress cep in
       let* id := uuidv4 in
       on_clients (EvClientSave (Client.assign c id address))
         (ClientRepository.save (Client.assign c id address))
   end) w.
Proof. intros Hv He Hp Hc w. unfold registerClient. by rewrite Hv, He, Hp, Hc. Qed.

Lemma registerClient_unique c email phone cep (w : World R A) :
  valid_client c = true ->
  c.(Client.email) = Some email -> c.(Client.phone) = Some phone -> c.(Client.cep) = Some cep ->
  Forall (fun x => ~ ClientRepository.clashes email phone x) (ClientRepository.contents w.(w_clients)) ->
  registerClient c w =
  (let* address := resolveAddress cep in
   let* id := uuidv4 in
   on_clients (EvClientSave (Client.assign c id address))
     (ClientRepository.save (Client.assign c id address)))
    (log_app w [EvFindByEmailOrPhone email phone]).
Proof.
  intros Hv He Hp Hc Hu. rewrite (registerClient_fields c email phone cep) by done.
  destruct (findByEmailOrPhone_run email phone w) as (o & Hrun & Hnone).
  rewrite (bind_run_ret _ _ _ _ _ Hrun). by rewrite (proj2 Hnone Hu).
Qed.

(** C3: Spec section 8: a request missing a required field fails with the
    validation error before any store or network call; the world is
    left exactly as it was. *)
Theorem registerClient_invalid c (w : World R A) :
  missing_field c -> registerClient c w = (Throw (Error invalid_data_message), w).
Proof.
  intros Hm. apply valid_client_missing in Hm. unfold registerClient. by rewrite Hm.
Qed.

(** C2: Spec section 8: when a stored client has the same email or phone,
    registration fails with the duplicate error after the lookup, and
    nothing else happens: no cache or network call, no save. *)
Theorem registerClient_duplicate c email phone cep (w : World R A) :
  valid_client c = true ->
  c.(Client.email) = Some email -> c.(Client.phone) = Some phone -> c.(Client.cep) = Some cep ->
  Exists (ClientRepository.clashes email phone) (ClientRepository.contents w.(w_clients)) ->
  registerClient c w = (Throw (Error duplicate_message), log_app w [EvFindByEmailOrPhone email phone]).
Proof.
  intros Hv He Hp Hc Hx. rewrite (registerClient_fields c email phone cep) by done.
  destruct (findByEmailOrPhone_run email phone w) as (o & Hrun & Hnone).
  rewrite (bind_run_ret _ _ _ _ _ Hrun). destruct o as [x|]; [done|].
  exfalso. apply (Forall_Exists_neg _ _) in Hx; [done|]. by apply Hnone.
Qed.

(** C4: Spec section 8: on a cache hit the providers are not called and
    nothing is written to the cache or the address repository; the
    cached value is attached as it is, and the result is what the
    repository's [save] returns. *)
Theorem registerClient_cached c email phone cep v (w : World R A) :
  valid_client c = true ->
  c.(Client.email) = Some email -> c.(Client.phone) = Some phone -> c.(Client.cep) = Some cep ->
  Forall (fun x => ~ ClientRepository.clashes email phone x) (ClientRepository.contents w.(w_clients)) ->
  cached_result (Redis.get cep w.(w_now) w.(w_redis)) = Ret v -> truthy v = true ->
  let id := w.(w_uuid) w.(w_next) in
  let c' := Client.assign c id v in
  registerClient c w =
  ((ClientRepository.save c' w.(w_clients)).1,
   set_clients (ClientRepository.save c' w.(w_clients)).2
     (log_app (set_next (S w.(w_next)) w)
        [EvFindByEmailOrPhone email phone; EvRedisGet cep; EvUuid id; EvClientSave c'])).
Proof.
  intros Hv He Hp Hc Hu Hcache Ht. rewrite (registerClient_unique c email phone cep) by done.
  rewrite (bind_run_ret _ _ _ _ _
             (resolveAddress_cached cep (log_app w [EvFindByEmailOrPhone email phone]) v Hcache Ht)).
  rewrite assign_and_save_run. cbn [w_uuid w_next w_clients log_app].
  rewrite !set_next_log_app, !log_app_app. reflexivity.
Qed.

(** C1: Spec section 8 and its scenario: on a cache miss with a resolvable
    postal code, the resolved address is written to the cache, then
    to the address repository, then a uuid is drawn and the client,
    with that uuid and that address, is saved; the result is what
    [save] returns.  The calls are exactly these, in this order. *)
Theorem registerClient_resolved c email phone cep v a (w : World R A) :
  valid_client c = true ->
  c.(Client.email) = Some email -> c.(Client.phone) = Some phone -> c.(Client.cep) = Some cep ->
  Forall (fun x => ~ ClientRepository.clashes email phone x) (ClientRepository.contents w.(w_clients)) ->
  cached_result (Redis.get cep w.(w_now) w.(w_redis)) = Ret v -> truthy v = false ->
  resolve w.(w_net) cep = Some a ->
  let id := w.(w_uuid) w.(w_next) in
  let c' := Client.assign c id (Address.to_js a) in
  exists s',
    AddressRepository.contents s' = AddressRepository.contents w.(w_addresses) ++ [a] /\
    registerClient c w =
    ((ClientRepository.save c' w.(w_clients)).1,
     set_clients (ClientRepository.save c' w.(w_clients)).2
       (set_addresses s'
          (log_app (set_next (S w.(w_next)) (set_redis (<[cep := cache_entry a w.(w_now)]> w.(w_redis)) w))
             ([EvFindByEmailOrPhone email phone; EvRedisGet cep] ++ fetch_trace w.(w_net) cep ++
              [EvRedisSet cep (print (Address.to_js a)) cache_ttl; EvAddressSave a;
               EvUuid id; EvClientSave c'])))).
Proof.
  intros Hv He Hp Hc Hu Hcache Ht Hres. rewrite (registerClient_unique c email phone cep) by done.
  pose proof (resolveAddress_miss cep (log_app w [EvFindByEmailOrPhone email phone]) v Hcache Ht) as Hm.
  cbn [w_net log_app] in Hm. fold (w_net w) in Hm. rewrite Hres in Hm.
  destruct Hm as (s' & Hrun & Hcont). exists s'. split; [done|].
  rewrite (bind_run_ret _ _ _ _ _ Hrun), assign_and_save_run. unfold written.
  unfold set_clients, set_next, set_addresses, set_redis, log_app.
  cbn [w_clients w_addresses w_redis w_now w_net w_uuid w_next w_log].
  f_equal. f_equal. rewrite <- !app_assoc. reflexivity.
Qed.

(** C5: Spec section 8: when neither provider resolves the postal code,
    registration fails with the not-found error after trying them;
    nothing is written to the cache, to the address repository or to
    the client repository. *)
Theorem registerClient_not_found c email phone cep v (w : World R A) :
  valid_client c = true ->
  c.(Client.email) = Some email -> c.(Client.phone) = Some phone -> c.(Client.cep) = Some cep ->
  Forall (fun x => ~ ClientRepository.clashes email phone x) (ClientRepository.contents w.(w_clients)) ->
  cached_result (Redis.get cep w.(w_now) w.(w_redis)) = Ret v -> truthy v = false ->
  resolve w.(w_net) cep = None ->
  registerClient c w =
  (Throw (Error cep_not_found_message),
   log_app w ([EvFindByEmailOrPhone email phone; EvRedisGet cep] ++ fetch_trace w.(w_net) cep)).
Proof.
  intros Hv He Hp Hc Hu Hcache Ht Hres. rewrite (registerClient_unique c email phone cep) by done.
  pose proof (resolveAddress_miss cep (log_app w [EvFindByEmailOrPhone email phone]) v Hcache Ht) as Hm.
  cbn [w_net log_app] in Hm. fold (w_net w) in Hm. rewrite Hres in Hm.
  rewrite (bind_run_throw _ _ _ _ _ Hm). by rewrite log_app_app.
Qed.
End Register.

(** ** The cache *)

Section Cache.
Context {R A : Type} `{!ClientRepository.Ops R} `{!AddressRepository.Ops A}.

Lemma get_cache_entry cep a now t (st : Redis.store) :
  (now <= t < now + cache_ttl)%Z ->
  Redis.get cep t (<[cep := cache_entry a now]> st) = Some (print (Address.to_js a)).
Proof.
  intros Ht. unfold Redis.get, Redis.expired. rewrite lookup_insert_eq. simpl.
  destruct (Z.leb_spec (now + cache_ttl) t); [lia|done].
Qed.

Lemma cached_result_print v :
  is_json v = true -> cached_result (Some (print v)) = Ret v.
Proof.
  intros Hj. unfold cached_result. apply print_nonempty in Hj as Hne.
  apply truthy_str in Hne. rewrite Hne. by apply JSON_parse_print.
Qed.

(** C9: Spec section 8, round trip: an address cached by [cacheAddress]
    and read back by [getCachedAddress] before it expires is equal,
    in every field, to the one stored. *)
Theorem cache_roundtrip cep a (w : World R A) t :
  Address.fields_json a = true -> (w.(w_now) <= t < w.(w_now) + cache_ttl)%Z ->
  (getCachedAddress cep (set_now t (cacheAddress cep a w).2)).1 = Ret (Address.to_js a).
Proof.
  intros Hj Ht. rewrite cacheAddress_run, getCachedAddress_run. cbn [fst snd].
  cbn [w_now w_redis set_now set_redis log_app]. rewrite get_cache_entry by done.
  by apply cached_result_print, address_to_js_json.
Qed.

(** C10: Spec section 4.2: after 24 hours the entry has expired and reads as
    a miss ([null]), which sends the next registration to the
    providers again. *)
Theorem cache_expiry cep a (w : World R A) t :
  (w.(w_now) + cache_ttl <= t)%Z ->
  (getCachedAddress cep (set_now t (cacheAddress cep a w).2)).1 = Ret JNull.
Proof.
  intros Ht. rewrite cacheAddress_run, getCachedAddress_run. cbn [fst snd].
  cbn [w_now w_redis set_now set_redis log_app].
  unfold Redis.get, Redis.expired. rewrite lookup_insert_eq. simpl.
  by destruct (Z.leb_spec (w_now w + cache_ttl) t); [|lia].
Qed.
End Cache.

(** Every live entry of the cache is the JSON of an address whose postal
    code is the key. *)
Definition cache_wf (st : Redis.store) (now : Z) : Prop :=
  forall k e, st !! k = Some e -> Redis.expired e now = false ->
  exists a, e.(Redis.value) = print (Address.to_js a) /\ a.(Address.cep) = k /\
            Address.fields_json a = true.

Lemma cache_wf_insert st now k a :
  cache_wf st now -> a.(Address.cep) = k -> Address.fields_json a = true ->
  cache_wf (<[k := cache_entry a now]> st) now.
Proof.
  intros Hwf Hk Hj k' e. destruct (decide (k = k')) as [<-|Hne].
  - rewrite lookup_insert_eq. intros [= <-] _. by exists a.
  - rewrite lookup_insert_ne by done. apply Hwf.
Qed.

Lemma cache_wf_later st now t : cache_wf st now -> (now <= t)%Z -> cache_wf st t.
Proof.
  intros Hwf Ht k e Hk He. apply (Hwf k e Hk). unfold Redis.expired in *.
  destruct (Redis.expires_at e); [|done]. apply Z.leb_gt in He. apply Z.leb_gt. lia.
Qed.

(** ** Invariants kept by [registerClient] *)

Section Invariants.
Context {R A : Type} `{!ClientRepository.Ops R} `{!ClientRepository.Laws R}
        `{!AddressRepository.Ops A} `{!AddressRepository.Laws A}.

Lemma resolveAddress_error cep (w : World R A) e :
  cached_result (Redis.get cep w.(w_now) w.(w_redis)) = Throw e ->
  resolveAddress cep w = (Throw e, log_app w [EvRedisGet cep]).
Proof.
  intros Hc. unfold resolveAddress. apply bind_run_throw. by rewrite getCachedAddress_run, Hc.
Qed.

(** What one registration may change: the cache gains at most the
    resolved address of the client's postal code; the client
    repository is unchanged, or is the result of saving the client
    after a lookup found no clash; the clock and the network are
    untouched. *)
Lemma registerClient_shape c (w : World R A) :
  let w' := (registerClient c w).2 in
  w'.(w_now) = w.(w_now) /\ w'.(w_net) = w.(w_net) /\
  (w'.(w_redis) = w.(w_redis) \/
   exists cep a, c.(Client.cep) = Some cep /\ resolve w.(w_net) cep = Some a /\
     w'.(w_redis) = <[cep := cache_entry a w.(w_now)]> w.(w_redis)) /\
  (w'.(w_clients) = w.(w_clients) \/
   exists email phone id v,
     c.(Client.email) = Some email /\ c.(Client.phone) = Some phone /\
     Forall (fun x => ~ ClientRepository.clashes email phone x)
            (ClientRepository.contents w.(w_clients)) /\
     w'.(w_clients) = (ClientRepository.save (Client.assign c id v) w.(w_clients)).2).
Proof.
  cbv zeta.
  destruct (valid_client c) eqn:Hv.
  2:{ unfold registerClient. rewrite Hv. simpl. repeat split; by left. }
  destruct (Client.email c) as [e|] eqn:He, (Client.phone c) as [p|] eqn:Hp,
    (Client.cep c) as [k|] eqn:Hk;
    try (unfold registerClient; rewrite ?Hv, ?He, ?Hp, ?Hk; simpl; repeat split; by left).
  rewrite (registerClient_fields c e p k) by done.
  destruct (findByEmailOrPhone_run e p w) as (o & Hrun & Hnone).
  rewrite (bind_run_ret _ _ _ _ _ Hrun). destruct o as [x|]; [simpl; repeat split; by left|].
  pose proof (proj1 Hnone eq_refl) as Hu.
  set (w0 := log_app w [EvFindByEmailOrPhone e p]).
  destruct (cached_result (Redis.get k (w_now w) (w_redis w))) as [v|err] eqn:Hc.
  - destruct (truthy v) eqn:Ht.
    + rewrite (bind_run_ret _ _ _ _ _ (resolveAddress_cached k w0 v Hc Ht)), assign_and_save_run.
      simpl. repeat split; [by left|]. right. exists e, p, (w_uuid w (w_next w)), v. auto.
    + pose proof (resolveAddress_miss k w0 v Hc Ht) as Hm. cbn [w0 w_net log_app] in Hm.
      fold (w_net w) in Hm. destruct (resolve (w_net w) k) as [a|] eqn:Hr.
      * destruct Hm as (s' & Hrun2 & _). rewrite (bind_run_ret _ _ _ _ _ Hrun2), assign_and_save_run.
        simpl. repeat split.
        -- right. by exists k, a.
        -- right. exists e, p, (w_uuid w (w_next w)), (Address.to_js a). auto.
      * rewrite (bind_run_throw _ _ _ _ _ Hm). simpl. repeat split; by left.
  - rewrite (bind_run_throw _ _ _ _ _ (resolveAddress_error k w0 err Hc)). simpl.
    repeat split; by left.
Qed.

(** C8: The cache invariant: whatever a registration does, every live cache
    entry is still the JSON of an address for its key, provided the
    network delivers JSON bodies. *)
Theorem registerClient_cache_wf c (w : World R A) :
  net_json w.(w_net) -> cache_wf w.(w_redis) w.(w_now) ->
  cache_wf (registerClient c w).2.(w_redis) (registerClient c w).2.(w_now).
Proof.
  intros Hnet Hwf. destruct (registerClient_shape c w) as (Hnow & _ & [Hr|(k & a & _ & Hres & Hr)] & _);
    rewrite Hnow, Hr; [done|].
  destruct (resolve_wf _ _ _ Hnet Hres) as [Hk Hj]. by apply cache_wf_insert.
Qed.

(** Email and phone are each unique among stored clients. *)
Definition unique_contacts (l : list Client.t) : Prop :=
  NoDup (omap Client.email l) /\ NoDup (omap Client.phone l).

(** Every stored client has an address. *)
Definition all_addressed (l : list Client.t) : Prop :=
  Forall (fun c => is_Some c.(Client.address)) l.

Lemma omap_no_clash_email e p l :
  Forall (fun x => ~ ClientRepository.clashes e p x) l -> e ∉ omap Client.email l.
Proof.
  induction 1 as [|x l Hx Hl IH]; simpl; [set_solver|].
  unfold ClientRepository.clashes in Hx.
  destruct (Client.email x) eqn:Ex; [|done]. rewrite elem_of_cons. intros [<-|?]; [tauto|done].
Qed.

Lemma omap_no_clash_phone e p l :
  Forall (fun x => ~ ClientRepository.clashes e p x) l -> p ∉ omap Client.phone l.
Proof.
  induction 1 as [|x l Hx Hl IH]; simpl; [set_solver|].
  unfold ClientRepository.clashes in Hx.
  destruct (Client.phone x) eqn:Ex; [|done]. rewrite elem_of_cons. intros [<-|?]; [tauto|done].
Qed.

Lemma unique_contacts_snoc l c e p :
  unique_contacts l -> c.(Client.email) = Some e -> c.(Client.phone) = Some p ->
  Forall (fun x => ~ ClientRepository.clashes e p x) l -> unique_contacts (l ++ [c]).
Proof.
  intros [He Hp] Ee Ep Hu. unfold unique_contacts. rewrite !omap_app.
  change (omap Client.email [c]) with (match Client.email c with Some y => [y] | None => [] end).
  change (omap Client.phone [c]) with (match Client.phone c with Some y => [y] | None => [] end).
  rewrite Ee, Ep. split; apply NoDup_app; (split; [done|]); (split; [|apply NoDup_singleton]);
    intros x Hx Hx'; apply list_elem_of_singleton in Hx'; subst x.
  - by apply (omap_no_clash_email e p l).
  - by apply (omap_no_clash_phone e p l).
Qed.

(** C7: Spec section 3: a registration keeps every email and every phone
    unique among stored clients, and never stores a client without an
    address. *)
Theorem registerClient_store_invariant c (w : World R A) :
  unique_contacts (ClientRepository.contents w.(w_clients)) ->
  all_addressed (ClientRepository.contents w.(w_clients)) ->
  unique_contacts (ClientRepository.contents (registerClient c w).2.(w_clients)) /\
  all_addressed (ClientRepository.contents (registerClient c w).2.(w_clients)).
Proof.
  intros Hu Ha. destruct (registerClient_shape c w) as (_ & _ & _ & [Hc|(e & p & id & v & Ee & Ep & Hno & Hc)]);
    rewrite Hc; [done|].
  pose proof (ClientRepository.save_spec (Client.assign c id v) (w_clients w)) as Hs.
  destruct (ClientRepository.save _ _) as [[c'|err] r'] eqn:Hsave; simpl; [|by subst].
  destruct Hs as (Hcont & _ & He' & Hp' & Hadd). rewrite Hcont. cbn [Client.assign Client.email Client.phone] in *.
  split.
  - apply (unique_contacts_snoc _ _ e p); [done|congruence|congruence|done].
  - apply Forall_app; split; [done|]. constructor; [|done]. apply Hadd. by eexists.
Qed.
End Invariants.

(** ** The scenario of spec section 8, on the repositories of the code *)

Module Scenario.

Local Open Scope string_scope.

(** The body ViaCEP answers in the test of the repository. *)
Definition viacep_body : jsval :=
  JObj [("cep", JStr "01001000"); ("logradouro", JStr "Praça da Sé"); ("bairro", JStr "Sé");
        ("localidade", JStr "São Paulo"); ("uf", JStr "SP")].

Definition net (url : string) : option jsval :=
  if String.eqb url (viacep_url "01001000") then Some viacep_body else None.

Definition world (st : Redis.store) (stored : list doc) (net : string -> option jsval)
  : World collection addresses :=
  mkWorld (mkCollection stored 0 false) [] st 0 net (fun _ => "some-unique-id") 0 [].

Definition request (name : string) : Client.t :=
  Client.mk None (Some name) (Some "joao@example.com") (Some "1199887766") (Some "01001000") None.

Definition address : Address.t :=
  Address.mk "01001000" (JStr "Praça da Sé") (JStr "Sé") (JStr "São Paulo") (JStr "SP").

(** The registration of the scenario returns the stored copy, and the
    cache and the address repository each receive one write. *)
Example scenario_run :
  let w' := (registerClient (request "João") (world ∅ [] net)).2 in
  is_ret (registerClient (request "João") (world ∅ [] net)).1 = true /\
  List.length (List.filter (fun ev => match ev with EvRedisSet k _ _ => String.eqb k "01001000"
                                            | _ => false end) w'.(w_log)) = 1 /\
  w'.(w_addresses) = [address].
Proof. vm_compute. repeat split. Qed.
End Scenario.

Lemma registerClient_invalid_witness :
  missing_field (Scenario.request "") /\
  registerClient (Scenario.request "") (Scenario.world ∅ [] Scenario.net) =
    (Throw (Error invalid_data_message), Scenario.world ∅ [] Scenario.net).
Proof.
  assert (H : missing_field (Scenario.request "")) by (constructor; by right).
  split; [exact H|]. exact (registerClient_invalid _ _ H).
Defined.

(** ** Witnesses on the scenario *)

Definition stored_joao : doc :=
  mkDoc "000000000000000000000007" "Maria" "joao@example.com" "1100000000"
    (mkAddressDoc "000000000000000000000008" "01001000" "Praça da Sé" "Sé" "São Paulo" "SP").

Lemma registerClient_duplicate_witness :
  let w := Scenario.world ∅ [stored_joao] Scenario.net in
  valid_client (Scenario.request "João") = true /\
  Exists (ClientRepository.clashes "joao@example.com" "1100000001")
    (ClientRepository.contents w.(w_clients)) /\
  registerClient (Scenario.request "João") w =
    (Throw (Error duplicate_message), log_app w [EvFindByEmailOrPhone "joao@example.com" "1199887766"]).
Proof.
  cbv zeta. split; [reflexivity|]. split; [by constructor; left|].
  apply (registerClient_duplicate _ _ _ "01001000"); try reflexivity. by constructor; left.
Defined.

Definition cached_world : World collection addresses :=
  Scenario.world (<["01001000" := cache_entry Scenario.address 0]> ∅) [] (fun _ => None).

Lemma registerClient_cached_witness :
  valid_client (Scenario.request "João") = true /\
  cached_result (Redis.get "01001000" cached_world.(w_now) cached_world.(w_redis))
    = Ret (Address.to_js Scenario.address) /\
  registerClient (Scenario.request "João") cached_world =
    let c' := Client.assign (Scenario.request "João") "some-unique-id" (Address.to_js Scenario.address) in
    ((ClientRepository.save c' cached_world.(w_clients)).1,
     set_clients (ClientRepository.save c' cached_world.(w_clients)).2
       (log_app (set_next 1 cached_world)
          [EvFindByEmailOrPhone "joao@example.com" "1199887766"; EvRedisGet "01001000";
           EvUuid "some-unique-id"; EvClientSave c'])).
Proof.
  assert (Hc : cached_result (Redis.get "01001000" cached_world.(w_now) cached_world.(w_redis))
                = Ret (Address.to_js Scenario.address)) by (vm_compute; reflexivity).
  assert (Hu : Forall (fun x => ~ ClientRepository.clashes "joao@example.com" "1199887766" x)
                (ClientRepository.contents cached_world.(w_clients))) by (vm_compute; constructor).
  split; [reflexivity|]. split; [exact Hc|].
  exact (registerClient_cached (Scenario.request "João") "joao@example.com" "1199887766" "01001000"
           (Address.to_js Scenario.address) cached_world eq_refl eq_refl eq_refl eq_refl
           Hu Hc eq_refl).
Defined.

Lemma registerClient_resolved_witness :
  let w := Scenario.world ∅ [] Scenario.net in
  resolve w.(w_net) "01001000" = Some Scenario.address /\
  exists s',
    AddressRepository.contents s' = AddressRepository.contents w.(w_addresses) ++ [Scenario.address] /\
    registerClient (Scenario.request "João") w =
    let c' := Client.assign (Scenario.request "João") "some-unique-id" (Address.to_js Scenario.address) in
    ((ClientRepository.save c' w.(w_clients)).1,
     set_clients (ClientRepository.save c' w.(w_clients)).2
       (set_addresses s'
          (log_app (set_next 1 (set_redis (<["01001000" := cache_entry Scenario.address 0]> ∅) w))
             ([EvFindByEmailOrPhone "joao@example.com" "1199887766"; EvRedisGet "01001000"] ++
              fetch_trace w.(w_net) "01001000" ++
              [EvRedisSet "01001000" (print (Address.to_js Scenario.address)) cache_ttl;
               EvAddressSave Scenario.address; EvUuid "some-unique-id"; EvClientSave c'])))).
Proof.
  cbv zeta.
  assert (Hr : resolve Scenario.net "01001000" = Some Scenario.address) by (vm_compute; reflexivity).
  assert (Hu : Forall (fun x => ~ ClientRepository.clashes "joao@example.com" "1199887766" x)
                (ClientRepository.contents (Scenario.world ∅ [] Scenario.net).(w_clients)))
    by (vm_compute; constructor).
  split; [exact Hr|].
  exact (registerClient_resolved (Scenario.request "João") "joao@example.com" "1199887766" "01001000"
           JNull Scenario.address (Scenario.world ∅ [] Scenario.net) eq_refl eq_refl eq_refl eq_refl
           Hu eq_refl eq_refl Hr).
Defined.

Lemma registerClient_not_found_witness :
  let w := Scenario.world ∅ [] (fun _ => None) in
  resolve w.(w_net) "01001000" = None /\
  registerClient (Scenario.request "João") w =
    (Throw (Error cep_not_found_message),
     log_app w ([EvFindByEmailOrPhone "joao@example.com" "1199887766"; EvRedisGet "01001000"] ++
                fetch_trace w.(w_net) "01001000")).
Proof.
  cbv zeta.
  assert (Hu : Forall (fun x => ~ ClientRepository.clashes "joao@example.com" "1199887766" x)
                (ClientRepository.contents (Scenario.world ∅ [] (fun _ => None)).(w_clients)))
    by (vm_compute; constructor).
  split; [reflexivity|].
  exact (registerClient_not_found (Scenario.request "João") "joao@example.com" "1199887766" "01001000"
           JNull (Scenario.world ∅ [] (fun _ => None)) eq_refl eq_refl eq_refl eq_refl
           Hu eq_refl eq_refl eq_refl).
Defined.

Lemma cache_roundtrip_witness :
  Address.fields_json Scenario.address = true /\
  (getCachedAddress "01001000"
     (set_now 3600 (cacheAddress "01001000" Scenario.address (Scenario.world ∅ [] Scenario.net)).2)).1
  = Ret (Address.to_js Scenario.address).
Proof.
  split; [reflexivity|]. apply cache_roundtrip; [reflexivity|]. unfold cache_ttl. simpl. lia.
Defined.

Lemma cache_expiry_witness :
  (getCachedAddress "01001000"
     (set_now 86400 (cacheAddress "01001000" Scenario.address (Scenario.world ∅ [] Scenario.net)).2)).1
  = Ret JNull.
Proof. apply cache_expiry. unfold cache_ttl. simpl. lia. Defined.

Lemma net_json_scenario : net_json Scenario.net.
Proof.
  intros url d. unfold Scenario.net. destruct (String.eqb _ _); [|done]. by intros [= <-].
Qed.

Lemma cache_wf_empty now : cache_wf ∅ now.
Proof. intros k e. by rewrite lookup_empty. Qed.

Lemma registerClient_cache_wf_witness :
  let w := Scenario.world ∅ [] Scenario.net in
  net_json w.(w_net) /\ cache_wf w.(w_redis) w.(w_now) /\
  cache_wf (registerClient (Scenario.request "João") w).2.(w_redis)
           (registerClient (Scenario.request "João") w).2.(w_now).
Proof.
  cbv zeta. assert (H1 : net_json Scenario.net) by exact net_json_scenario.
  assert (H2 : cache_wf (∅ : Redis.store) 0) by apply cache_wf_empty.
  split; [exact H1|]. split; [exact H2|].
  exact (registerClient_cache_wf (Scenario.request "João") (Scenario.world ∅ [] Scenario.net) H1 H2).
Defined.

Lemma registerClient_store_invariant_witness :
  let w := Scenario.world ∅ [stored_joao] Scenario.net in
  unique_contacts (ClientRepository.contents w.(w_clients)) /\
  all_addressed (ClientRepository.contents w.(w_clients)) /\
  unique_contacts (ClientRepository.contents (registerClient (Scenario.request "Ana") w).2.(w_clients)) /\
  all_addressed (ClientRepository.contents (registerClient (Scenario.request "Ana") w).2.(w_clients)).
Proof.
  cbv zeta.
  assert (H1 : unique_contacts (ClientRepository.contents (w_clients (Scenario.world ∅ [stored_joao] Scenario.net))))
    by (split; repeat constructor; set_solver).
  assert (H2 : all_addressed (ClientRepository.contents (w_clients (Scenario.world ∅ [stored_joao] Scenario.net))))
    by (repeat constructor; by eexists).
  split; [exact H1|]. split; [exact H2|].
  exact (registerClient_store_invariant (Scenario.request "Ana") (Scenario.world ∅ [stored_joao] Scenario.net) H1 H2).
Defined.
