(* ===== verification/Controller.v ===== *)
(** [ClientController] of src/src/interfaces/controllers/ClientController.ts,
    [errorResponse] of src/src/utils/errorResponse.ts and the router of
    src/src/infrastructure/web/routes.ts.

    A handler runs in the service's monad and always resolves with a
    [response]: its status code and its JSON body.  The bodies the
    handlers send are the client (or clients) the service returns, a
    message object, or the error object [{ error: { code, message } }]
    of [errorResponse].

    [ErrorCodes] is imported from src/src/utils/errorCodes, which the
    repository does not contain: it is modelled from spec section 6 (a
    fixed enumerated set of codes), each code printed as its own name.

    [parseInt] is the ECMAScript function with no radix: leading white
    space, a sign, a [0x] prefix that switches to base 16, then the
    longest run of digits; no digit at all is [NaN] ([None]).  White
    space is the ASCII white space, and the value is the exact integer
    (JavaScript rounds past 2^53, which no page number reaches).  A
    query parameter that is absent is [undefined], which [parseInt]
    reads as the string ["undefined"]. *)

From stdpp Require Import base list option.
From Stdlib Require Import String Ascii ZArith Lia DecimalString DecimalN.
From S2P Require Import Prelude JsValue Json Entities Redis Repositories World Providers.
From S2P Require Import MongoSchema MongoClientRepository Service.

Local Open Scope string_scope.

(** ** Error codes and responses *)

Module ErrorCodes.
Inductive t :=
| VALIDATION_ERROR
| DUPLICATE_CLIENT
| ADDRESS_NOT_FOUND
| CLIENT_NOT_FOUND
| INTERNAL_SERVER_ERROR.

Definition to_string (c : t) : string :=
  match c with
  | VALIDATION_ERROR => "VALIDATION_ERROR"
  | DUPLICATE_CLIENT => "DUPLICATE_CLIENT"
  | ADDRESS_NOT_FOUND => "ADDRESS_NOT_FOUND"
  | CLIENT_NOT_FOUND => "CLIENT_NOT_FOUND"
  | INTERNAL_SERVER_ERROR => "INTERNAL_SERVER_ERROR"
  end.
End ErrorCodes.

(** What [res.json(...)] is given. *)
Inductive body :=
| JsonClient (c : Client.t)
| JsonClients (l : list Client.t)
| JsonValue (v : jsval).

Record response := mkResponse { status : Z; body_of : body }.

(** [errorResponse(res, statusCode, code, message)] *)
Definition errorResponse (statusCode : Z) (code : ErrorCodes.t) (message : string) : response :=
  mkResponse statusCode
    (JsonValue (JObj [("error", JObj [("code", JStr (ErrorCodes.to_string code));
                                       ("message", JStr message)])])).

(** ** [parseInt] and the query parameters *)

Fixpoint skip_spaces (s : string) : string :=
  match s with
  | String c s' => if is_space c then skip_spaces s' else s
  | EmptyString => EmptyString
  end.

(** The value of a digit in base [radix], letters of either case
    standing for 10 to 35. *)
Definition digit_val (radix : Z) (c : ascii) : option Z :=
  let n := Z.of_nat (nat_of_ascii c) in
  let d := if (48 <=? n)%Z && (n <=? 57)%Z then Some (n - 48)%Z
           else if (97 <=? n)%Z && (n <=? 122)%Z then Some (n - 87)%Z
           else if (65 <=? n)%Z && (n <=? 90)%Z then Some (n - 55)%Z
           else None in
  match d with Some v => if (v <? radix)%Z then Some v else None | None => None end.

(** The longest run of digits: [None] when it is empty. *)
Fixpoint read_int (radix acc : Z) (any : bool) (s : string) : option Z :=
  match s with
  | String c s' =>
      match digit_val radix c with
      | Some d => read_int radix (acc * radix + d)%Z true s'
      | None => if any then Some acc else None
      end
  | EmptyString => if any then Some acc else None
  end.

(** [parseInt(s)]: [None] is [NaN]. *)
Definition parseInt (s : string) : option Z :=
  let s1 := skip_spaces s in
  let '(sign, s2) :=
    match s1 with
    | String "-"%char r => ((-1)%Z, r)
    | String "+"%char r => (1%Z, r)
    | _ => (1%Z, s1)
    end in
  let '(radix, s3) :=
    match s2 with
    | String "0"%char (String x r) =>
        if Ascii.eqb x "x"%char || Ascii.eqb x "X"%char then (16%Z, r) else (10%Z, s2)
    | _ => (10%Z, s2)
    end in
  option_map (Z.mul sign) (read_int radix 0 false s3).

(** [req.query.k as string]: absent is [undefined]. *)
Definition query_string (q : option string) : string := default "undefined" q.

(** [parseInt(x) || d]: [NaN] and [0] are falsy. *)
Definition int_or (n : option Z) (d : Z) : Z :=
  match n with Some v => if (v =? 0)%Z then d else v | None => d end.

Definition page_param (q : option string) : Z := int_or (parseInt (query_string q)) 1.
Definition limit_param (q : option string) : Z := int_or (parseInt (query_string q)) 10.

(** ** The handlers *)

Definition client_not_found_message : string := "Cliente não encontrado".
Definition deleted_message : string := "Cliente deletado com sucesso".
Definition internal_error_message : string := "Internal server error".

Section Handlers.
Context {R A : Type} `{!ClientRepository.Ops R} `{!AddressRepository.Ops A}.

(** Lines 13-24: the [catch] of [register]. *)
Definition register_error (error : exn) : response :=
  if String.eqb error.(exn_message) invalid_data_message then
    errorResponse 400 ErrorCodes.VALIDATION_ERROR error.(exn_message)
  else if String.eqb error.(exn_message) duplicate_message then
    errorResponse 400 ErrorCodes.DUPLICATE_CLIENT error.(exn_message)
  else if String.eqb error.(exn_message) cep_not_found_message then
    errorResponse 400 ErrorCodes.ADDRESS_NOT_FOUND error.(exn_message)
  else errorResponse 500 ErrorCodes.INTERNAL_SERVER_ERROR internal_error_message.

(** [public async register(req, res)] *)
Definition register (reqBody : Client.t) : SM R A response :=
  catch (let* client := registerClient reqBody in ret (mkResponse 201 (JsonClient client)))
        (fun error => ret (register_error error)).

(** The [catch] of [list], [getById], [delete] and [search]. *)
Definition validation_error (error : exn) : SM R A response :=
  ret (errorResponse 400 ErrorCodes.VALIDATION_ERROR error.(exn_message)).

(** [public async list(req, res)] *)
Definition list (query : string -> option string) : SM R A response :=
  catch (let page := page_param (query "page") in
         let limit := limit_param (query "limit") in
         let* clients := listClients page limit in
         ret (mkResponse 200 (JsonClients clients)))
        validation_error.

(** [public async getById(req, res)] *)
Definition getById (id : string) : SM R A response :=
  catch (let* client := getClientById id in
         match client with
         | None => ret (errorResponse 404 ErrorCodes.CLIENT_NOT_FOUND client_not_found_message)
         | Some c => ret (mkResponse 200 (JsonClient c))
         end)
        validation_error.

(** [public async delete(req, res)] *)
Definition delete (id : string) : SM R A response :=
  catch (let* client := getClientById id in
         match client with
         | None => ret (errorResponse 404 ErrorCodes.CLIENT_NOT_FOUND client_not_found_message)
         | Some _ =>
             let* _ := deleteClientById id in
             ret (mkResponse 200 (JsonValue (JObj [("message", JStr deleted_message)])))
         end)
        validation_error.

(** [public async search(req, res)].  [new RegExp(undefined, 'i')] is
    the empty pattern, so an absent [name] searches with [""]. *)
Definition search (query : string -> option string) : SM R A response :=
  catch (let name := default "" (query "name") in
         let page := page_param (query "page") in
         let limit := limit_param (query "limit") in
         let* clients := searchClientsByName name page limit in
         ret (mkResponse 200 (JsonClients clients)))
        validation_error.

(** ** The router *)

Inductive method := GET | POST | DELETE.

Record request := mkRequest {
  r_method : method;
  r_path : Datatypes.list string;
  r_query : string -> option string;
  r_body : Client.t
}.

(** [router.post('/api/v1/clients', ...)] and the four other routes;
    [None] is a request no route matches. *)
Definition route (req : request) : option (SM R A response) :=
  match req.(r_method), req.(r_path) with
  | POST, ["api"; "v1"; "clients"] => Some (register req.(r_body))
  | GET, ["api"; "v1"; "clients"] => Some (list req.(r_query))
  | GET, ["api"; "v1"; "clients"; id] => if String.eqb id "" then None else Some (getById id)
  | DELETE, ["api"; "v1"; "clients"; id] => if String.eqb id "" then None else Some (delete id)
  | GET, ["api"; "v1"; "search"] => Some (search req.(r_query))
  | _, _ => None
  end.
End Handlers.

(** ** [parseInt] on printed numbers *)

Lemma pos_of_uint_acc d p :
  Zpos (Pos.of_uint_acc d p) = (Zpos p * 10 ^ Z.of_nat (Decimal.nb_digits d) + Z.of_N (N.of_uint d))%Z.
Proof.
  revert p. induction d as [|d IH|d IH|d IH|d IH|d IH|d IH|d IH|d IH|d IH|d IH]; intros p;
    unfold N.of_uint in *; cbn [Pos.of_uint_acc Decimal.nb_digits Pos.of_uint Z.of_N];
    rewrite ?IH, ?Nat2Z.inj_succ, ?Z.pow_succ_r, ?Pos2Z.inj_add, ?Pos2Z.inj_mul by lia;
    first [ring | simpl; lia].
Qed.

(** Compute the code of a character literal. *)
Ltac eval_char_codes :=
  repeat match goal with
  | |- context [Z.of_nat (nat_of_ascii ?c)] =>
      let v := eval vm_compute in (Z.of_nat (nat_of_ascii c)) in
      change (Z.of_nat (nat_of_ascii c)) with v
  end.

(** Reading the decimal digits of [d] after the digits already read
    into [acc]. *)
Lemma read_int_uint d acc :
  read_int 10 acc true (NilEmpty.string_of_uint d) =
  Some (acc * 10 ^ Z.of_nat (Decimal.nb_digits d) + Z.of_N (N.of_uint d))%Z.
Proof.
  revert acc. induction d as [|d IH|d IH|d IH|d IH|d IH|d IH|d IH|d IH|d IH|d IH]; intros acc;
    [simpl; f_equal; lia|..];
    simpl NilEmpty.string_of_uint; simpl read_int; rewrite IH; f_equal;
    unfold N.of_uint; cbn [Decimal.nb_digits Pos.of_uint Z.of_N];
    rewrite ?pos_of_uint_acc, ?Nat2Z.inj_succ, ?Z.pow_succ_r by lia; unfold N.of_uint;
    eval_char_codes; ring.
Qed.

(** A digit string without a leading zero, with its sign. *)
Lemma parseInt_uint (sign : Z) s u :
  leading_ok u = true ->
  (s = NilEmpty.string_of_uint u /\ sign = 1%Z \/
   s = String "-" (NilEmpty.string_of_uint u) /\ sign = (-1)%Z) ->
  parseInt s = Some (sign * Z.of_N (N.of_uint u))%Z.
Proof.
  intros Hl Hs.
  destruct u as [|u|u|u|u|u|u|u|u|u|u]; try discriminate;
    [destruct u; try discriminate; destruct Hs as [[-> ->]|[-> ->]]; reflexivity|..];
    destruct Hs as [[-> ->]|[-> ->]]; unfold parseInt; simpl; rewrite read_int_uint;
    cbn -[Z.pow]; f_equal; unfold N.of_uint; cbn [Pos.of_uint Z.of_N];
    rewrite pos_of_uint_acc; unfold N.of_uint; eval_char_codes; lia.
Qed.

(** [parseInt(String(n))] is [n] for every integer. *)
Lemma parseInt_number_to_string z : parseInt (number_to_string z) = Some z.
Proof.
  destruct z as [|p|p]; [reflexivity| |];
    (erewrite parseInt_uint; [|apply leading_ok_to_uint|]);
    [|left; split; reflexivity| |right; split; reflexivity];
    by rewrite DecimalN.Unsigned.of_to.
Qed.

(** [parseInt(undefined)] is [NaN]. *)
Example parseInt_undefined : parseInt "undefined" = None.
Proof. reflexivity. Qed.

Example parseInt_samples :
  parseInt "  12abc" = Some 12%Z /\ parseInt "-0x1A" = Some (-26)%Z /\
  parseInt "0x" = None /\ parseInt "1e3" = Some 1%Z /\ parseInt "+7" = Some 7%Z.
Proof. vm_compute. repeat split. Qed.

(** ** The handlers' contracts *)

Definition service_messages : Datatypes.list string :=
  [invalid_data_message; duplicate_message; cep_not_found_message].

Lemma register_error_cases e :
  In e.(exn_message) service_messages /\
  (exists code, register_error e = errorResponse 400 code e.(exn_message)) \/
  ~ In e.(exn_message) service_messages /\
  register_error e = errorResponse 500 ErrorCodes.INTERNAL_SERVER_ERROR internal_error_message.
Proof.
  unfold register_error, service_messages. simpl.
  destruct (String.eqb_spec (exn_message e) invalid_data_message) as [->|H1];
    [left; split; [simpl; tauto|eauto]|].
  destruct (String.eqb_spec (exn_message e) duplicate_message) as [->|H2];
    [left; split; [simpl; tauto|eauto]|].
  destruct (String.eqb_spec (exn_message e) cep_not_found_message) as [->|H3];
    [left; split; [simpl; tauto|eauto]|].
  right. split; [|done]. intros [H|[H|[H|[]]]]; congruence.
Qed.

Section Contracts.
Context {R A : Type} `{!ClientRepository.Ops R} `{!AddressRepository.Ops A}.

(** C13: [page] and [limit] default to 1 and 10 when the parameter is
    absent, is not a number, or is 0; a number given in decimal is read
    as itself otherwise; neither is ever 0 (it may be negative). *)
Theorem page_limit_params z :
  page_param None = 1%Z /\ limit_param None = 10%Z /\
  page_param (Some (number_to_string z)) = (if (z =? 0)%Z then 1%Z else z) /\
  limit_param (Some (number_to_string z)) = (if (z =? 0)%Z then 10%Z else z) /\
  (forall q, page_param q <> 0%Z /\ limit_param q <> 0%Z).
Proof.
  unfold page_param, limit_param, query_string. cbn [default from_option id].
  rewrite parseInt_number_to_string. split; [done|]. split; [done|]. split; [done|].
  split; [done|]. intros q. unfold int_or.
  destruct (parseInt _) as [v|]; [|lia]. destruct (Z.eqb_spec v 0); lia.
Qed.

(** C14: [register] always answers: 201 with the client the service
    returns, or, when the service rejects, 400 with the error's own
    message exactly for the three messages of the service and 500
    "Internal server error" for every other exception. *)
Theorem register_responds reqBody (w : World R A) :
  exists r, register reqBody w = (Ret r, (registerClient reqBody w).2) /\
  match (registerClient reqBody w).1 with
  | Ret c => r = mkResponse 201 (JsonClient c)
  | Throw e =>
      In e.(exn_message) service_messages /\
      (exists code, r = errorResponse 400 code e.(exn_message)) \/
      ~ In e.(exn_message) service_messages /\
      r = errorResponse 500 ErrorCodes.INTERNAL_SERVER_ERROR internal_error_message
  end.
Proof.
  unfold register, catch, bind at 1.
  destruct (registerClient reqBody w) as [[c|e] w']; cbn; eexists; split; try reflexivity.
  apply register_error_cases.
Qed.

(** C15: [delete] looks the client up first: when it is absent the
    answer is 404 and [deleteById] is never called; when it is present
    it is deleted and the answer is 200; an exception of either call
    is answered 400 with its message. *)
Theorem delete_spec id (w : World R A) :
  delete id w =
  match ClientRepository.findById id w.(w_clients) with
  | (Throw e, r) =>
      (Ret (errorResponse 400 ErrorCodes.VALIDATION_ERROR e.(exn_message)),
       set_clients r (log_app w [EvFindById id]))
  | (Ret None, r) =>
      (Ret (errorResponse 404 ErrorCodes.CLIENT_NOT_FOUND client_not_found_message),
       set_clients r (log_app w [EvFindById id]))
  | (Ret (Some _), r) =>
      let w1 := set_clients r (log_app w [EvFindById id]) in
      match ClientRepository.deleteById id r with
      | (Ret _, r2) =>
          (Ret (mkResponse 200 (JsonValue (JObj [("message", JStr deleted_message)]))),
           set_clients r2 (log_app w1 [EvDeleteById id]))
      | (Throw e, r2) =>
          (Ret (errorResponse 400 ErrorCodes.VALIDATION_ERROR e.(exn_message)),
           set_clients r2 (log_app w1 [EvDeleteById id]))
      end
  end.
Proof.
  unfold delete, getClientById, deleteClientById, on_clients, log, catch, bind, focus, ret,
    validation_error.
  cbn [w_clients log_app]. fold (w_clients w).
  destruct (ClientRepository.findById id (w_clients w)) as [[[c|]|e] r]; try reflexivity.
  cbn [w_clients set_clients log_app].
  destruct (ClientRepository.deleteById id r) as [[[]|e] r2]; reflexivity.
Qed.
End Contracts.
