(* ===== verification/App.v ===== *)
(** The application as src/src/infrastructure/web/routes.ts wires it:
    [ClientController] over [ClientService] over [ClientRepositoryImpl]
    (the Mongoose model) and [AddressRepositoryImpl] (the module-level
    array).  The theorems here are about the composition: what a
    client of the HTTP interface sees when the schema of
    src/src/infrastructure/database/models/Client.ts rejects a client
    the service has accepted.  Both are departures from the spec: a
    malformed field is a [ValidationError] (400) in spec section 7,
    and the empty fields the providers produce make the registration
    fail after the cache and the address store have been written. *)

From stdpp Require Import base list option gmap strings.
From Stdlib Require Import String ZArith Lia.
From S2P Require Import Prelude JsValue Json Entities Redis Repositories World Providers.
From S2P Require Import MongoSchema MongoClientRepository Service Controller.
Import ClientRepositoryImpl AddressRepositoryImpl.

(** The world of the deployed application. *)
Abbreviation AppWorld := (World collection addresses).

(** Lines 7-10: [new ClientController(new ClientService(new
    ClientRepositoryImpl(), new AddressRepositoryImpl()))], behind the
    router. *)
Definition app (req : request) : option (SM collection addresses response) := route req.

(** ** Lemmas *)

(** The errors of the schema are none of the service's messages. *)
Lemma mongo_error_not_service e :
  e = ValidationFailed \/ (exists p, e = CastError p) -> ~ In e.(exn_message) service_messages.
Proof.
  unfold service_messages, invalid_data_message, duplicate_message, cep_not_found_message.
  intros [->|[p ->]]; simpl; intros [H|[H|[H|[]]]];
    cbv beta iota fix delta [String.append] in H; congruence.
Qed.

Lemma register_error_internal e :
  ~ In e.(exn_message) service_messages ->
  register_error e = errorResponse 500 ErrorCodes.INTERNAL_SERVER_ERROR internal_error_message.
Proof. intros Hn. by destruct (register_error_cases e) as [[? _]|[_ ?]]. Qed.

(** Resolving the address never touches the client repository. *)
Lemma resolveAddress_clients cep (w w1 : AppWorld) v :
  resolveAddress cep w = (Ret v, w1) -> w1.(w_clients) = w.(w_clients).
Proof.
  destruct (cached_result (Redis.get cep w.(w_now) w.(w_redis))) as [v0|e] eqn:Hc.
  - destruct (truthy v0) eqn:Ht.
    + rewrite (resolveAddress_cached cep w v0 Hc Ht). by intros [= _ <-].
    + pose proof (resolveAddress_miss cep w v0 Hc Ht) as Hm.
      destruct (resolve (w_net w) cep) as [a|].
      * destruct Hm as (s' & -> & _). by intros [= _ <-].
      * by rewrite Hm.
  - by rewrite (resolveAddress_error cep w e Hc).
Qed.

Section Rejected.
Context (c : Client.t) (email phone cep : string) (w : AppWorld).
Hypothesis Hvalid : valid_client c = true.
Hypothesis Hemail : c.(Client.email) = Some email.
Hypothesis Hphone : c.(Client.phone) = Some phone.
Hypothesis Hcep : c.(Client.cep) = Some cep.
Hypothesis Hunique :
  Forall (fun x => ~ ClientRepository.clashes email phone x) (ClientRepository.contents w.(w_clients)).

(** A registration the service carries to the end but the schema
    rejects is answered 500; the client repository is unchanged and
    what the resolution wrote stays written. *)
Lemma register_save_rejected v (w1 : AppWorld) :
  resolveAddress cep (log_app w [EvFindByEmailOrPhone email phone]) = (Ret v, w1) ->
  (forall i aid, is_ret (build_doc (Client.assign c (w_uuid w1 (w_next w1)) v) i aid) = false) ->
  register c w =
  (Ret (errorResponse 500 ErrorCodes.INTERNAL_SERVER_ERROR internal_error_message),
   log_app (set_next (S (w_next w1)) w1)
     [EvUuid (w_uuid w1 (w_next w1)); EvClientSave (Client.assign c (w_uuid w1 (w_next w1)) v)]).
Proof.
  intros Hres Hb.
  destruct (save_rejected (Client.assign c (w_uuid w1 (w_next w1)) v) (w_clients w1) Hb)
    as (e & Hs & He).
  assert (Hreg : registerClient c w =
    (Throw e, set_clients (w_clients w1) (log_app (set_next (S (w_next w1)) w1)
       [EvUuid (w_uuid w1 (w_next w1)); EvClientSave (Client.assign c (w_uuid w1 (w_next w1)) v)]))).
  { rewrite (registerClient_unique c email phone cep) by done.
    rewrite (bind_run_ret _ _ _ _ _ Hres), assign_and_save_run.
    change (ClientRepository.save ?x ?col) with (ClientRepositoryImpl.save x col).
    by rewrite Hs. }
  unfold register. rewrite (catch_run_throw _ _ _ e _ (bind_run_throw _ _ _ _ _ Hreg)).
  unfold ret. rewrite register_error_internal by (by apply mongo_error_not_service).
  by destruct w1.
Qed.
End Rejected.

(** ** The schema behind the service *)

(** C16: When a provider answers without one of the address fields,
    the service stores [''] for it; the schema's [required] rejects the
    empty string, so the registration is answered 500 "Internal server
    error" -- after the address has been written to the cache and to
    the address store, and with no client stored. *)
Theorem register_empty_field_500 c email phone cep v a (w : AppWorld) :
  valid_client c = true ->
  c.(Client.email) = Some email -> c.(Client.phone) = Some phone -> c.(Client.cep) = Some cep ->
  Forall (fun x => ~ ClientRepository.clashes email phone x) (ClientRepository.contents w.(w_clients)) ->
  cached_result (Redis.get cep w.(w_now) w.(w_redis)) = Ret v -> truthy v = false ->
  resolve w.(w_net) cep = Some a ->
  In (JStr "") [a.(Address.street); a.(Address.neighborhood); a.(Address.city); a.(Address.state)] ->
  (register c w).1 = Ret (errorResponse 500 ErrorCodes.INTERNAL_SERVER_ERROR internal_error_message) /\
  (register c w).2.(w_redis) !! cep = Some (cache_entry a w.(w_now)) /\
  (register c w).2.(w_addresses) = w.(w_addresses) ++ [a] /\
  (register c w).2.(w_clients) = w.(w_clients).
Proof.
  intros Hv He Hp Hc Hu Hcache Ht Hres Hin.
  pose proof (resolveAddress_miss cep (log_app w [EvFindByEmailOrPhone email phone]) v Hcache Ht)
    as Hm.
  cbn [w_net log_app] in Hm. fold (w_net w) in Hm. rewrite Hres in Hm.
  destruct Hm as (s' & Hrun & Hcont).
  rewrite (register_save_rejected c email phone cep w Hv He Hp Hc Hu _ _ Hrun).
  2: { intros i aid. apply (build_doc_empty_field _ _ _ a); [reflexivity|exact Hin]. }
  unfold written. destruct w. cbn in *. repeat split; try done. apply lookup_insert_eq.
Qed.

(** C17: A request whose email the schema's pattern rejects passes
    the service's own check (present and not empty); once its address
    is obtained, from the cache or the providers, it is answered 500
    "Internal server error", not the 400 [ValidationError] of the spec,
    and no client is stored. *)
Theorem register_bad_email_500 c email phone cep v (w w1 : AppWorld) :
  valid_client c = true ->
  c.(Client.email) = Some email -> c.(Client.phone) = Some phone -> c.(Client.cep) = Some cep ->
  Forall (fun x => ~ ClientRepository.clashes email phone x) (ClientRepository.contents w.(w_clients)) ->
  email_ok email = false ->
  resolveAddress cep (log_app w [EvFindByEmailOrPhone email phone]) = (Ret v, w1) ->
  (register c w).1 = Ret (errorResponse 500 ErrorCodes.INTERNAL_SERVER_ERROR internal_error_message) /\
  (register c w).2.(w_clients) = w.(w_clients).
Proof.
  intros Hv He Hp Hc Hu Hbad Hres.
  rewrite (register_save_rejected c email phone cep w Hv He Hp Hc Hu _ _ Hres).
  2: { intros i aid. by apply (build_doc_bad_email _ _ _ email). }
  split; [done|]. apply resolveAddress_clients in Hres. by destruct w1.
Qed.

(** ** Witnesses *)

Definition empty_field_address : Address.t :=
  Address.mk "01001000" (JStr "Praça da Sé") (JStr "") (JStr "São Paulo") (JStr "SP").

Definition empty_field_world : AppWorld := Scenario.world ∅ [] sample_net.

Lemma register_empty_field_500_witness :
  (register (Scenario.request "João") empty_field_world).1 =
    Ret (errorResponse 500 ErrorCodes.INTERNAL_SERVER_ERROR internal_error_message) /\
  (register (Scenario.request "João") empty_field_world).2.(w_redis) !! "01001000" =
    Some (cache_entry empty_field_address 0) /\
  (register (Scenario.request "João") empty_field_world).2.(w_addresses) = [empty_field_address] /\
  (register (Scenario.request "João") empty_field_world).2.(w_clients) =
    empty_field_world.(w_clients).
Proof.
  assert (Hv : valid_client (Scenario.request "João") = true) by reflexivity.
  assert (Hu : Forall (fun x => ~ ClientRepository.clashes "joao@example.com" "1199887766" x)
                 (ClientRepository.contents empty_field_world.(w_clients))) by constructor.
  assert (Hc : cached_result (Redis.get "01001000" empty_field_world.(w_now)
                                empty_field_world.(w_redis)) = Ret JNull) by reflexivity.
  assert (Hr : resolve empty_field_world.(w_net) "01001000" = Some empty_field_address)
    by (vm_compute; reflexivity).
  assert (Hin : In (JStr "") [JStr "Praça da Sé"; JStr ""; JStr "São Paulo"; JStr "SP"])
    by (right; left; reflexivity).
  exact (register_empty_field_500 (Scenario.request "João") "joao@example.com" "1199887766"
           "01001000" JNull empty_field_address empty_field_world
           Hv eq_refl eq_refl eq_refl Hu Hc eq_refl Hr Hin).
Defined.

Definition bad_email_request : Client.t :=
  Client.mk None (Some "João") (Some "joao@example") (Some "1199887766") (Some "01001000") None.

Definition bad_email_world : AppWorld := Scenario.world ∅ [] Scenario.net.

Lemma register_bad_email_500_witness :
  (register bad_email_request bad_email_world).1 =
    Ret (errorResponse 500 ErrorCodes.INTERNAL_SERVER_ERROR internal_error_message) /\
  (register bad_email_request bad_email_world).2.(w_clients) = bad_email_world.(w_clients).
Proof.
  assert (Hv : valid_client bad_email_request = true) by reflexivity.
  assert (Hu : Forall (fun x => ~ ClientRepository.clashes "joao@example" "1199887766" x)
                 (ClientRepository.contents bad_email_world.(w_clients))) by constructor.
  assert (Hb : email_ok "joao@example" = false) by reflexivity.
  assert (Hres : resolveAddress "01001000"
                   (log_app bad_email_world [EvFindByEmailOrPhone "joao@example" "1199887766"]) =
                 (Ret (Address.to_js Scenario.address),
                  (resolveAddress "01001000"
                     (log_app bad_email_world [EvFindByEmailOrPhone "joao@example" "1199887766"])).2))
    by (vm_compute; reflexivity).
  exact (register_bad_email_500 bad_email_request "joao@example" "1199887766" "01001000"
           _ bad_email_world _ Hv eq_refl eq_refl eq_refl Hu Hb Hres).
Defined.
